(** * The minute-close message (EOM) of factomd

    A shallow embedding of [common/messages/eom.go]: the binary codec of the
    message ([MarshalForSignature], [MarshalBinary], [UnmarshalBinaryData]),
    its lazily cached hash, and the leader and follower transitions that the
    message runs against the node state.

    Go values are modelled as follows.
    - A [[]byte] is a [list byte]; the nil slice and the empty slice are both
      [[]] (the code only takes lengths, indexes and reslices, which do not
      tell them apart).
    - [byte] is [Byte.byte], [uint32] is an [N] below [2^32], [int] is a [Z].
    - An interface value that may be nil (IHash, IFullSignature) is an
      [option].
    - An [error] is its message; a panic value is its [%v] rendering (for
      a runtime error, the text the Go runtime of the source's time gives).
    - A call either returns or panics: [res] has a constructor for each way
      a Go function with an [error] result can end. *)

From Stdlib Require Import List String NArith ZArith Lia Bool.
From Stdlib.Strings Require Import Byte.
From Stdlib Require Import DecimalString.
Import ListNotations.

(** ** Go runtime values *)

Definition error := string.
Definition panic_value := string.

Inductive res (A : Type) : Type :=
| Ok (a : A)
| Err (e : error)
| Panic (v : panic_value).
Arguments Ok {A} a.
Arguments Err {A} e.
Arguments Panic {A} v.

Definition index_out_of_range : panic_value :=
  "runtime error: index out of range"%string.
Definition slice_bounds_out_of_range : panic_value :=
  "runtime error: slice bounds out of range"%string.
Definition nil_pointer_dereference : panic_value :=
  "runtime error: invalid memory address or nil pointer dereference"%string.

(** How the runtime ends a recursion that never returns: a fatal error,
    which no [recover] stops. *)
Definition stack_overflow : panic_value := "fatal error: stack overflow"%string.

(** [s[n:]]: allowed when [n <= len(s)]. *)
Definition slice_from (n : nat) (s : list byte) : option (list byte) :=
  if (n <=? List.length s)%nat then Some (skipn n s) else None.

(** [s[0:n]] for a slice whose capacity is its length. *)
Definition slice_to (n : nat) (s : list byte) : option (list byte) :=
  if (n <=? List.length s)%nat then Some (firstn n s) else None.

(** The conversion [byte(x)] of an unsigned value: the low eight bits. *)
Definition byte_of_N (n : N) : byte :=
  match Byte.of_N (n mod 256) with
  | Some b => b
  | None => x00
  end.

(** The conversion [byte(x)] of an [int]. *)
Definition byte_of_Z (z : Z) : byte := byte_of_N (Z.to_N (z mod 256)).

(** [int(b)] of a byte. *)
Definition int_of_byte (b : byte) : Z := Z.of_N (Byte.to_N b).

(** ** encoding/binary, big endian *)

(** [binary.BigEndian.Uint32(b)]; it indexes [b[3]] first. *)
Definition BigEndian_Uint32 (b : list byte) : option N :=
  match b with
  | b0 :: b1 :: b2 :: b3 :: _ =>
      Some (N.lor (N.lor (N.lor (Byte.to_N b3)
                                (N.shiftl (Byte.to_N b2) 8))
                         (N.shiftl (Byte.to_N b1) 16))
                  (N.shiftl (Byte.to_N b0) 24))
  | _ => None
  end.

(** What [binary.Write(&buf, binary.BigEndian, v)] appends for a [uint32]. *)
Definition BigEndian_PutUint32 (v : N) : list byte :=
  [ byte_of_N (N.shiftr v 24); byte_of_N (N.shiftr v 16);
    byte_of_N (N.shiftr v 8); byte_of_N v ].

Definition uint32_range (v : N) : Prop := (v < 2 ^ 32)%N.

(** ** The primitives the message is built from

    [interfaces.BinaryMarshallable]: a value that writes itself to bytes and
    reads itself back, returning the bytes it did not consume.  The decoder
    has a pointer receiver, so it takes the receiver's old value and gives
    its new one. *)
Class BinaryMarshallable (T : Type) : Type := {
  zero_value : T;
  marshal_binary : T -> res (list byte);
  unmarshal_binary_data : T -> list byte -> T * res (list byte)
}.

(** The packages [interfaces], [primitives] and [constants] are imported by
    eom.go and are not part of the sources at hand: their types, codecs,
    hash function and constants are parameters of the development. *)
Class Primitives : Type := {
  interfaces_Timestamp : Type;
  primitives_Hash : Type;
  primitives_Signature : Type;
  Timestamp_codec : BinaryMarshallable interfaces_Timestamp;
  Hash_codec : BinaryMarshallable primitives_Hash;
  Signature_codec : BinaryMarshallable primitives_Signature;
  primitives_Sha : list byte -> primitives_Hash;
  constants_EOM_MSG : Z
}.
#[global] Existing Instance Timestamp_codec.
#[global] Existing Instance Hash_codec.
#[global] Existing Instance Signature_codec.

(** A codec is lawful when decoding what it encoded, followed by any other
    bytes, gives the value back and leaves exactly those other bytes.  A
    signature moreover encodes to at least one byte: the decoder of the
    message tells a signed from an unsigned message by whether bytes
    remain after the identity. *)
Definition codec_roundtrip (T : Type) `{BinaryMarshallable T} : Prop :=
  forall (t old : T) (bs rest : list byte),
    marshal_binary t = Ok bs ->
    unmarshal_binary_data old (bs ++ rest) = (t, Ok rest).

Definition codec_nonempty (T : Type) `{BinaryMarshallable T} : Prop :=
  forall (t : T) (bs : list byte), marshal_binary t = Ok bs -> bs <> [].

Record PrimitivesLaws `{Primitives} : Prop := {
  Timestamp_roundtrip : codec_roundtrip interfaces_Timestamp;
  Hash_roundtrip : codec_roundtrip primitives_Hash;
  Signature_roundtrip : codec_roundtrip primitives_Signature;
  Signature_nonempty : codec_nonempty primitives_Signature
}.
Arguments PrimitivesLaws : clear implicits.

(** ** The message *)

Section Message.
Context `{Primitives}.

Record EOM : Type := Build_EOM {
  Timestamp : interfaces_Timestamp;
  Minute : byte;
  DirectoryBlockHeight : N;
  IdentityChainID : option primitives_Hash;
  Signature : option primitives_Signature;
  hash : option primitives_Hash
}.

(** [new(EOM)]: every field at its zero value. *)
Definition new_EOM : EOM :=
  {| Timestamp := zero_value; Minute := x00; DirectoryBlockHeight := 0%N;
     IdentityChainID := None; Signature := None; hash := None |}.

Definition set_Timestamp (t : interfaces_Timestamp) (m : EOM) : EOM :=
  {| Timestamp := t; Minute := Minute m;
     DirectoryBlockHeight := DirectoryBlockHeight m;
     IdentityChainID := IdentityChainID m; Signature := Signature m;
     hash := hash m |}.

Definition set_Minute (b : byte) (m : EOM) : EOM :=
  {| Timestamp := Timestamp m; Minute := b;
     DirectoryBlockHeight := DirectoryBlockHeight m;
     IdentityChainID := IdentityChainID m; Signature := Signature m;
     hash := hash m |}.

Definition set_DirectoryBlockHeight (h : N) (m : EOM) : EOM :=
  {| Timestamp := Timestamp m; Minute := Minute m;
     DirectoryBlockHeight := h;
     IdentityChainID := IdentityChainID m; Signature := Signature m;
     hash := hash m |}.

Definition set_IdentityChainID (i : option primitives_Hash) (m : EOM) : EOM :=
  {| Timestamp := Timestamp m; Minute := Minute m;
     DirectoryBlockHeight := DirectoryBlockHeight m;
     IdentityChainID := i; Signature := Signature m;
     hash := hash m |}.

Definition set_Signature (s : option primitives_Signature) (m : EOM) : EOM :=
  {| Timestamp := Timestamp m; Minute := Minute m;
     DirectoryBlockHeight := DirectoryBlockHeight m;
     IdentityChainID := IdentityChainID m; Signature := s;
     hash := hash m |}.

Definition set_hash (h : option primitives_Hash) (m : EOM) : EOM :=
  {| Timestamp := Timestamp m; Minute := Minute m;
     DirectoryBlockHeight := DirectoryBlockHeight m;
     IdentityChainID := IdentityChainID m; Signature := Signature m;
     hash := h |}.

(** [func (m *EOM) Type() int] *)
Definition Type_ (m : EOM) : Z := constants_EOM_MSG.

(** [func (m *EOM) GetTimestamp() interfaces.Timestamp] *)
Definition GetTimestamp (m : EOM) : interfaces_Timestamp := Timestamp m.

(** [func (m *EOM) Int() int] *)
Definition Int (m : EOM) : Z := int_of_byte (Minute m).

(** [func (m *EOM) Bytes() []byte] *)
Definition Bytes (m : EOM) : list byte := [] ++ [Minute m].

(** [func (m *EOM) GetSignature() interfaces.IFullSignature] *)
Definition GetSignature (m : EOM) : option primitives_Signature := Signature m.

(** *** Encoding *)

(** [func (m *EOM) MarshalForSignature() (data []byte, err error)].
    The buffer is threaded as a list; calling [MarshalBinary] on a nil
    [IdentityChainID] is a nil dereference. *)
Definition MarshalForSignature (m : EOM) : res (list byte) :=
  let buf := [byte_of_Z (Type_ m)] in
  match marshal_binary (Timestamp m) with
  | Panic v => Panic v
  | Err e => Err e
  | Ok d =>
      let buf := buf ++ d in
      let buf := buf ++ [Minute m] in
      let buf := buf ++ BigEndian_PutUint32 (DirectoryBlockHeight m) in
      match IdentityChainID m with
      | None => Panic nil_pointer_dereference
      | Some id =>
          match marshal_binary id with
          | Panic v => Panic v
          | Err e => Err e
          | Ok h => Ok (buf ++ h)
          end
      end
  end.

(** [func (m *EOM) MarshalBinary() (data []byte, err error)] *)
Definition MarshalBinary (m : EOM) : res (list byte) :=
  match MarshalForSignature m with
  | Panic v => Panic v
  | Err e => Err e
  | Ok resp =>
      match GetSignature m with
      | Some sig =>
          match marshal_binary sig with
          | Panic v => Panic v
          | Err e => Err e
          | Ok sigBytes => Ok (resp ++ sigBytes)
          end
      | None => Ok resp
      end
  end.

(** [func (m *EOM) GetHash() interfaces.IHash]: computed on first use and
    kept in the message. *)
Definition GetHash (m : EOM) : EOM * res primitives_Hash :=
  match hash m with
  | Some h => (m, Ok h)
  | None =>
      match MarshalForSignature m with
      | Panic v => (m, Panic v)
      | Err e => (m, Panic ("Error in EOM.GetHash(): " ++ e)%string)
      | Ok data =>
          let h := primitives_Sha data in (set_hash (Some h) m, Ok h)
      end
  end.

(** The cached hash, when there is one, is the hash of the payload the
    fields give now: no signed field was changed after the hash was taken. *)
Definition hash_coherent (m : EOM) : Prop :=
  match hash m with
  | None => True
  | Some h =>
      exists data, MarshalForSignature m = Ok data /\ h = primitives_Sha data
  end.

(** *** Decoding *)

(** The receiver and the named results [newData] and [err] of
    [UnmarshalBinaryData], as they stand when the body stops. *)
Record decode_frame : Type := Build_frame {
  receiver : EOM;
  newData : list byte;
  err : option error
}.

(** How a function body stops: by returning, or by a panic that unwinds
    to its deferred calls. *)
Inductive flow : Type :=
| Returns (f : decode_frame)
| Panics (f : decode_frame) (r : panic_value).

(** The body of [func (m *EOM) UnmarshalBinaryData(data []byte)], before
    its deferred function runs.  [newData[0:4]] is bounded by the capacity
    and [newData[4:]] by the length; a slice shorter than four bytes stops
    at one of the two with the same runtime error, so the model takes the
    capacity to be the length. *)
Definition UnmarshalBinaryData_body (m : EOM) (data : list byte) : flow :=
  match slice_from 1 data with
  | None => Panics (Build_frame m [] None) slice_bounds_out_of_range
  | Some newData0 =>
      match unmarshal_binary_data (Timestamp m) newData0 with
      | (ts, Panic r) => Panics (Build_frame (set_Timestamp ts m) newData0 None) r
      | (ts, Err e) => Returns (Build_frame (set_Timestamp ts m) [] (Some e))
      | (ts, Ok newData1) =>
          let m := set_Timestamp ts m in
          match newData1 with
          | [] => Panics (Build_frame m newData1 None) index_out_of_range
          | b :: newData2 =>
              let m := set_Minute b m in
              if (Byte.to_N (Minute m) <? 0)%N || (10 <=? Byte.to_N (Minute m))%N
              then Returns (Build_frame m [] (Some "Minute number is out of range"%string))
              else
                match slice_to 4 newData2 with
                | None => Panics (Build_frame m newData2 None) slice_bounds_out_of_range
                | Some b4 =>
                    match BigEndian_Uint32 b4 with
                    | None => Panics (Build_frame m newData2 None) index_out_of_range
                    | Some height =>
                        match slice_from 4 newData2 with
                        | None =>
                            Panics (Build_frame m newData2 None) slice_bounds_out_of_range
                        | Some newData3 =>
                            let m := set_DirectoryBlockHeight height m in
                            match unmarshal_binary_data (zero_value (T:=primitives_Hash)) newData3 with
                            | (_, Panic r) => Panics (Build_frame m newData3 None) r
                            | (_, Err e) => Returns (Build_frame m [] (Some e))
                            | (hash, Ok newData4) =>
                                let m := set_IdentityChainID (Some hash) m in
                                if (0 <? List.length newData4)%nat
                                then
                                  match unmarshal_binary_data
                                          (zero_value (T:=primitives_Signature)) newData4 with
                                  | (_, Panic r) => Panics (Build_frame m newData4 None) r
                                  | (_, Err e) => Returns (Build_frame m [] (Some e))
                                  | (sig, Ok _) =>
                                      Returns (Build_frame (set_Signature (Some sig) m) data None)
                                  end
                                else Returns (Build_frame m data None)
                            end
                        end
                    end
                end
          end
      end
  end.

(** The deferred function: [recover()] stops a panic and turns it into the
    [err] result; the other named results keep their values. *)
Definition deferred_recover (fl : flow) : flow :=
  match fl with
  | Returns f => Returns f
  | Panics f r =>
      Returns (Build_frame (receiver f) (newData f)
                           (Some ("Error unmarshalling: " ++ r)%string))
  end.

(** [func (m *EOM) UnmarshalBinaryData(data []byte) (newData []byte, err error)] *)
Definition UnmarshalBinaryData (m : EOM) (data : list byte) : flow :=
  deferred_recover (UnmarshalBinaryData_body m data).

(** [func (m *EOM) UnmarshalBinary(data []byte) error] *)
Definition UnmarshalBinary (m : EOM) (data : list byte) : flow :=
  match UnmarshalBinaryData m data with
  | Returns f => Returns (Build_frame (receiver f) [] (err f))
  | Panics f r => Panics f r
  end.

(** The frame a call of the decoder stopped with. *)
Definition frame_of (fl : flow) : decode_frame :=
  match fl with
  | Returns f => f
  | Panics f _ => f
  end.

(** *** Role dispatch *)

(** [func (m *EOM) Validate(interfaces.IState) int] *)
Definition Validate {IState : Type} (m : EOM) (state : IState) : Z := 1%Z.

(** [func (m *EOM) Leader(state interfaces.IState) bool] *)
Definition Leader {IState : Type} (m : EOM) (state : IState) : bool := false.

(** [func (m *EOM) Follower(interfaces.IState) bool] *)
Definition Follower {IState : Type} (m : EOM) (state : IState) : bool := true.

(** [func (e *EOM) Process(interfaces.IState)] *)
Definition Process {IState : Type} (e : EOM) (state : IState) : EOM := e.

(** [func NewEOM(state interfaces.IState, minute int) interfaces.IMsg] *)
Definition NewEOM {IState : Type} (state : IState) (minute : Z) : EOM :=
  let eom := new_EOM in
  let eom := set_Minute (byte_of_Z minute) eom in
  eom.

End Message.

(** ** The messages the node exchanges *)

Section Messages.
Context `{Primitives}.

(** Modelled from the spec: the directory-block-signature message, whose
    declaration is in another file of the package.  It "carries the previous
    directory block's content key" and, like every signable message, an
    optional signature; [LeaderExecute] assigns the field
    [DirectoryBlockKeyMR] and calls [Sign]. *)
Record DirectoryBlockSignature : Type := Build_DBS {
  DirectoryBlockKeyMR : option primitives_Hash;
  DBS_Signature : option primitives_Signature
}.

(** Modelled from the spec: [NewDirectoryBlockSignature()] constructs "a
    fresh Directory-Block-Signature message", nothing set and not signed. *)
Definition NewDirectoryBlockSignature : DirectoryBlockSignature :=
  {| DirectoryBlockKeyMR := None; DBS_Signature := None |}.

Definition set_DirectoryBlockKeyMR (k : option primitives_Hash)
    (d : DirectoryBlockSignature) : DirectoryBlockSignature :=
  {| DirectoryBlockKeyMR := k; DBS_Signature := DBS_Signature d |}.

Definition set_DBS_Signature (s : option primitives_Signature)
    (d : DirectoryBlockSignature) : DirectoryBlockSignature :=
  {| DirectoryBlockKeyMR := DirectoryBlockKeyMR d; DBS_Signature := s |}.

(** [interfaces.IMsg]: the two message kinds of this development and the
    kinds declared elsewhere. *)
Inductive IMsg (Other : Type) : Type :=
| IMsg_EOM (m : EOM)
| IMsg_DBS (d : DirectoryBlockSignature)
| IMsg_other (o : Other).

End Messages.
Arguments IMsg_EOM {_ Other} m.
Arguments IMsg_DBS {_ Other} d.
Arguments IMsg_other {_ Other} o.

(** ** The node state

    [interfaces.IState] is the collaborator every transition receives.  Its
    implementation is outside this development; the class lists the methods
    eom.go calls.  Getters read the state; [EndOfPeriod] (reached through
    [GetFactoidState()]) and [ProcessEndOfBlock] change it; the follower
    transition of another message may change it, return an error or panic.
    [SignSignable_EOM] and [SignSignable_DBS] are [SignSignable(m, key)] with
    the state as the signer.  [IMsg_FollowerExecute] is the dynamic dispatch
    of [msg.FollowerExecute(state)]: what it does for the message kinds
    declared elsewhere is the implementation's; for a minute-close message
    it is [FollowerExecute] of this file, which the condition
    [EOM_dispatch_is_FollowerExecute] below says of a node.
    [State_GetTimestamp] is the node's timestamp source. *)
Class IState `{Primitives} : Type := {
  State : Type;
  OtherMsg : Type;
  DirectoryBlock : Type;
  constants_NETWORK_MAIN : Z;
  constants_NETWORK_TEST : Z;
  constants_NETWORK_LOCAL : Z;
  constants_SERVER_MODE : Z;
  State_GetTimestamp : State -> interfaces_Timestamp;
  GetPreviousDirectoryBlock : State -> option DirectoryBlock;
  GetKeyMR : DirectoryBlock -> option primitives_Hash;
  GetProcessList : State -> list (list (IMsg OtherMsg));
  IMsg_FollowerExecute : IMsg OtherMsg -> State -> State * res unit;
  EndOfPeriod : Z -> State -> State;
  GetNetworkNumber : State -> Z;
  ProcessEndOfBlock : State -> State;
  GetServerState : State -> Z;
  SignSignable_EOM : EOM -> State -> res primitives_Signature;
  SignSignable_DBS : DirectoryBlockSignature -> State -> res primitives_Signature
}.

(** The cases of a Go [switch] over constants are pairwise different: the
    compiler refuses a duplicate case. *)
Definition switch_cases_distinct `{IState} : Prop :=
  constants_NETWORK_MAIN <> constants_NETWORK_TEST /\
  constants_NETWORK_MAIN <> constants_NETWORK_LOCAL /\
  constants_NETWORK_TEST <> constants_NETWORK_LOCAL.

(** A transition ends by returning a value or by a panic nobody recovers. *)
Inductive completion (A : Type) : Type :=
| Done (a : A)
| Aborted (v : panic_value).
Arguments Done {A} a.
Arguments Aborted {A} v.

Section Execution.
Context `{IState}.

(** What a transition does to its collaborators, in the order it does it:
    the calls that change the node state and the sends on its queues. *)
Inductive Call : Type :=
| Call_FollowerExecute (msg : IMsg OtherMsg)
| Call_EndOfPeriod (minute : Z)
| Call_ProcessEndOfBlock
| Send_NetworkOutMsgQueue (msg : IMsg OtherMsg)
| Send_InMsgQueue (msg : IMsg OtherMsg)
| Send_LeaderInMsgQueue (msg : IMsg OtherMsg).

(** The result of running a transition: how it ended, the node state it
    left and the calls it made. *)
Record run (A : Type) : Type := Build_run {
  outcome : completion A;
  final : State;
  trace : list Call
}.
Arguments Build_run {A} outcome final trace.
Arguments outcome {A} r.
Arguments final {A} r.
Arguments trace {A} r.

Definition Exec (A : Type) : Type := State -> run A.

Definition ret {A : Type} (a : A) : Exec A :=
  fun s => Build_run (Done a) s [].

Definition bind {A B : Type} (c : Exec A) (k : A -> Exec B) : Exec B :=
  fun s =>
    let r := c s in
    match outcome r with
    | Done a =>
        let r' := k a (final r) in
        Build_run (outcome r') (final r') (trace r ++ trace r')
    | Aborted v => Build_run (Aborted v) (final r) (trace r)
    end.

Definition panic {A : Type} (v : panic_value) : Exec A :=
  fun s => Build_run (Aborted v) s [].

Definition gets {A : Type} (f : State -> A) : Exec A :=
  fun s => Build_run (Done (f s)) s [].

Definition call (c : Call) (f : State -> State) : Exec unit :=
  fun s => Build_run (Done tt) (f s) [c].

(** A send on a channel of the node: recorded, the state untouched.  The
    queue is taken to have room; a send that blocks is not modelled. *)
Definition send (c : Call) : Exec unit :=
  fun s => Build_run (Done tt) s [c].

End Execution.
Arguments Build_run {_ _ A} outcome final trace.
Arguments outcome {_ _ A} r.
Arguments final {_ _ A} r.
Arguments trace {_ _ A} r.

Declare Scope exec_scope.
Delimit Scope exec_scope with exec.
Notation "x <- c ;; k" := (bind c (fun x => k))
  (at level 61, c at next level, right associativity) : exec_scope.
Notation "c ;; k" := (bind c (fun _ => k))
  (at level 61, right associativity) : exec_scope.

(** ** The transitions *)

(** [%d] of an [int]. *)
Definition format_int (z : Z) : string := NilZero.string_of_int (Z.to_int z).

Section Display.
Context `{Primitives}.

(** [func (m *EOM) String() string].  [m.Minute+1] is an addition of
    bytes: it wraps at 256. *)
Definition String_ (m : EOM) : string :=
  ("EOM(" ++ format_int (int_of_byte (byte_of_N (Byte.to_N (Minute m) + 1)))
     ++ "), DirectoryBlockHeight("
     ++ format_int (Z.of_N (DirectoryBlockHeight m)) ++ ")")%string.

End Display.

Section Transitions.
Context `{IState}.
Local Open Scope exec_scope.

(** [func (m *EOM) Sign(key primitives.Signer) error], the state being the
    signer: the signature is stored only when [SignSignable] gave one. *)
Definition Sign (m : EOM) (key : State) : EOM * res unit :=
  match SignSignable_EOM m key with
  | Panic v => (m, Panic v)
  | Err e => (m, Err e)
  | Ok signature => (set_Signature (Some signature) m, Ok tt)
  end.

(** Modelled from the spec: [Sign] of the directory-block-signature message,
    declared in another file of the package.  "Computes canonical_payload,
    signs it, stores the result; fails with SigningError if the key cannot
    produce a signature": the same shape as [Sign] of the minute-close
    message above. *)
Definition DBS_Sign (d : DirectoryBlockSignature) (key : State)
  : DirectoryBlockSignature * res unit :=
  match SignSignable_DBS d key with
  | Panic v => (d, Panic v)
  | Err e => (d, Err e)
  | Ok signature => (set_DBS_Signature (Some signature) d, Ok tt)
  end.

(** A call of [Sign] whose [error] result the caller may inspect. *)
Definition call_DBS_Sign (d : DirectoryBlockSignature)
  : Exec (DirectoryBlockSignature * option error) :=
  fun s =>
    match DBS_Sign d s with
    | (d', Ok _) => Build_run (Done (d', None)) s []
    | (d', Err e) => Build_run (Done (d', Some e)) s []
    | (d', Panic v) => Build_run (Aborted v) s []
    end.

(** [func (m *EOM) LeaderExecute(state interfaces.IState) error].
    The result of [DBM.Sign(state)] is dropped by the source. *)
Definition LeaderExecute (m : EOM) : Exec (option error) :=
  let DBM := NewDirectoryBlockSignature in
  prev <- gets GetPreviousDirectoryBlock ;;
  keyMR <- match prev with
           | None => panic nil_pointer_dereference
           | Some blk => ret (GetKeyMR blk)
           end ;;
  let DBM := set_DirectoryBlockKeyMR keyMR DBM in
  signed <- call_DBS_Sign DBM ;;
  let DBM := fst signed in
  send (Send_NetworkOutMsgQueue (IMsg_DBS DBM)) ;;
  send (Send_InMsgQueue (IMsg_DBS DBM)) ;;
  ret None.

(** [msg.FollowerExecute(state)] of a message of the process list, through
    the interface. *)
Definition call_FollowerExecute (msg : IMsg OtherMsg) : Exec (option error) :=
  fun s =>
    match IMsg_FollowerExecute msg s with
    | (s', Ok _) => Build_run (Done None) s' [Call_FollowerExecute msg]
    | (s', Err e) => Build_run (Done (Some e)) s' [Call_FollowerExecute msg]
    | (s', Panic v) => Build_run (Aborted v) s' [Call_FollowerExecute msg]
    end.

(** The [for _, msg := range ...] loop of [FollowerExecute]. *)
Fixpoint replay (msgs : list (IMsg OtherMsg)) : Exec unit :=
  match msgs with
  | [] => ret tt
  | msg :: rest =>
      err <- call_FollowerExecute msg ;;
      match err with
      | Some e => panic ("Failed to build state in EOM: " ++ e)%string
      | None => replay rest
      end
  end.

(** [state.GetProcessList()[0]] *)
Definition process_list_slot0 : Exec (list (IMsg OtherMsg)) :=
  pl <- gets GetProcessList ;;
  match pl with
  | [] => panic index_out_of_range
  | slot :: _ => ret slot
  end.

(** The [switch state.GetNetworkNumber()] of [FollowerExecute]. *)
Definition network_switch : Exec unit :=
  n <- gets GetNetworkNumber ;;
  if (n =? constants_NETWORK_MAIN)%Z then panic "Not implemented yet"%string
  else if (n =? constants_NETWORK_TEST)%Z then panic "Not implemented yet"%string
  else if (n =? constants_NETWORK_LOCAL)%Z then ret tt
  else
    n' <- gets GetNetworkNumber ;;
    panic ("Not implemented yet: Network Number " ++ format_int n')%string.

(** The [if m.Minute == 9] block of [FollowerExecute]. *)
Definition last_minute (m : EOM) : Exec unit :=
  if (Byte.to_N (Minute m) =? 9)%N then
    call Call_ProcessEndOfBlock ProcessEndOfBlock ;;
    ss <- gets GetServerState ;;
    if (ss =? constants_SERVER_MODE)%Z
    then send (Send_LeaderInMsgQueue (IMsg_EOM m))
    else ret tt
  else ret tt.

(** [func (m *EOM) FollowerExecute(state interfaces.IState) error] *)
Definition FollowerExecute (m : EOM) : Exec (option error) :=
  slot <- process_list_slot0 ;;
  replay slot ;;
  call (Call_EndOfPeriod (int_of_byte (Minute m)))
       (EndOfPeriod (int_of_byte (Minute m))) ;;
  network_switch ;;
  last_minute m ;;
  ret None.

(** A run of a transition as the caller of [msg.FollowerExecute(state)]
    sees it: the node it left and the error it returned, or its panic. *)
Definition as_call (r : run (option error)) : State * res unit :=
  (final r,
   match outcome r with
   | Done None => Ok tt
   | Done (Some e) => Err e
   | Aborted v => Panic v
   end).

(** The dispatch of [msg.FollowerExecute(state)] on a minute-close message
    is [FollowerExecute]: a node whose slot 0 holds such a message runs
    the transition again from within the replay. *)
Definition EOM_dispatch_is_FollowerExecute : Prop :=
  forall (m : EOM) (s : State),
    IMsg_FollowerExecute (IMsg_EOM m) s = as_call (FollowerExecute m s).

(** The first two steps of [FollowerExecute] on their own: the replay of
    slot 0 and the notification of the ledger.  Where they leave the node
    is where the network switch reads the profile. *)
Definition replay_and_notify (m : EOM) : Exec unit :=
  slot <- process_list_slot0 ;;
  replay slot ;;
  call (Call_EndOfPeriod (int_of_byte (Minute m)))
       (EndOfPeriod (int_of_byte (Minute m))).

(** [replayed s msgs s']: the follower executions of [msgs], run one after
    the other from [s], all return a nil error and leave the node in [s']. *)
Inductive replayed : State -> list (IMsg OtherMsg) -> State -> Prop :=
| replayed_nil (s : State) : replayed s [] s
| replayed_cons (s s1 s2 : State) (msg : IMsg OtherMsg)
    (rest : list (IMsg OtherMsg)) :
    IMsg_FollowerExecute msg s = (s1, Ok tt) ->
    replayed s1 rest s2 ->
    replayed s (msg :: rest) s2.

(** The calls of the last step: end-of-block processing and the send on
    the leader-input queue. *)
Definition is_end_of_block_step (c : Call) : bool :=
  match c with
  | Call_ProcessEndOfBlock => true
  | Send_LeaderInMsgQueue _ => true
  | _ => false
  end.

End Transitions.

(** ** A reference node

    A small concrete instance of the parameters, used to run the model:
    fixed-width fields (6-byte timestamp, 32-byte hash, 96-byte signature)
    and a node state that records what was done to it. *)
Module Reference.

(** A field of [width] bytes.  Encoding refuses a value of another length;
    decoding takes the first [width] bytes and slices without a length
    check, so a short input is a runtime panic. *)
Definition fixed_marshal (width : nat) (t : list byte) : res (list byte) :=
  if (List.length t =? width)%nat then Ok t
  else Err "wrong field length"%string.

Definition fixed_unmarshal (width : nat) (old data : list byte)
  : list byte * res (list byte) :=
  match slice_to width data, slice_from width data with
  | Some v, Some rest => (v, Ok rest)
  | _, _ => (old, Panic slice_bounds_out_of_range)
  end.

(** The same field with the length checked first: a short input is an
    error result. *)
Definition checked_unmarshal (width : nat) (old data : list byte)
  : list byte * res (list byte) :=
  if (width <=? List.length data)%nat
  then (firstn width data, Ok (skipn width data))
  else (old, Err "Not enough data to unmarshal"%string).

Definition fixed_codec (width : nat) : BinaryMarshallable (list byte) :=
  {| zero_value := repeat x00 width;
     marshal_binary := fixed_marshal width;
     unmarshal_binary_data := fixed_unmarshal width |}.

Definition checked_codec (width : nat) : BinaryMarshallable (list byte) :=
  {| zero_value := repeat x00 width;
     marshal_binary := fixed_marshal width;
     unmarshal_binary_data := checked_unmarshal width |}.

(** A stand-in for the digest: the first 32 bytes of the zero-padded input. *)
Definition digest (data : list byte) : list byte :=
  firstn 32 (data ++ repeat x00 32).

#[export] Instance primitives : Primitives :=
  {| interfaces_Timestamp := list byte;
     primitives_Hash := list byte;
     primitives_Signature := list byte;
     Timestamp_codec := fixed_codec 6;
     Hash_codec := checked_codec 32;
     Signature_codec := checked_codec 96;
     primitives_Sha := digest;
     constants_EOM_MSG := 0%Z |}.

(** The node: its configuration, its process list and a record of the
    minutes and blocks that were closed on it. *)
Record node : Type := Build_node {
  network : Z;
  server : Z;
  clock : list byte;
  previous_key : option (list byte);
  signing_key : option (list byte);
  slots : list (list (IMsg bool));
  minutes_ended : list Z;
  blocks_closed : nat
}.

Definition node_end_of_period (minute : Z) (s : node) : node :=
  Build_node (network s) (server s) (clock s) (previous_key s)
    (signing_key s) (slots s) (minutes_ended s ++ [minute])
    (blocks_closed s).

Definition node_end_of_block (s : node) : node :=
  Build_node (network s) (server s) (clock s) (previous_key s)
    (signing_key s) (slots s) (minutes_ended s)
    (S (blocks_closed s)).

(** The end of a minute-close transition on the node, after the replay:
    the ledger is notified, the profile is switched on, and minute 9 closes
    the block. *)
Definition node_finish (m : EOM) (s : node) : node * res unit :=
  let s1 := node_end_of_period (int_of_byte (Minute m)) s in
  if (network s1 =? 2)%Z then
    if (Byte.to_N (Minute m) =? 9)%N then (node_end_of_block s1, Ok tt)
    else (s1, Ok tt)
  else
    (s1,
     Panic (if ((network s1 =? 0) || (network s1 =? 1))%Z
            then "Not implemented yet"%string
            else ("Not implemented yet: Network Number "
                    ++ format_int (network s1))%string)).

(** The replay of a slot on the node, for the transition of [m].  A
    message of another kind carries one flag, whether its follower
    execution succeeds, and leaves the node as it is.  A minute-close
    message in the slot runs the transition again on the same slot, and
    that run meets the same message again: the recursion has no end, and
    the runtime stops it with a stack overflow. *)
Fixpoint node_replay (m : EOM) (slot : list (IMsg bool)) (s : node)
  : node * res unit :=
  match slot with
  | [] => node_finish m s
  | IMsg_other false :: _ =>
      (s, Panic "Failed to build state in EOM: rejected"%string)
  | IMsg_EOM _ :: _ => (s, Panic stack_overflow)
  | _ :: rest => node_replay m rest s
  end.

(** The messages whose follower execution on the node returns a nil
    error. *)
Definition passes (msg : IMsg bool) : bool :=
  match msg with
  | IMsg_other false => false
  | IMsg_EOM _ => false
  | _ => true
  end.

(** [msg.FollowerExecute(state)] on the node. *)
Definition node_follower (msg : IMsg bool) (s : node) : node * res unit :=
  match msg with
  | IMsg_other false => (s, Err "rejected"%string)
  | IMsg_EOM m =>
      match slots s with
      | [] => (s, Panic index_out_of_range)
      | slot :: _ => node_replay m slot s
      end
  | _ => (s, Ok tt)
  end.

(** Signing needs the node's key: the signature is the key's 32 bytes
    followed by 64 bytes of filler. *)
Definition node_sign (s : node) : res (list byte) :=
  match signing_key s with
  | Some k => Ok (k ++ repeat x01 64)
  | None => Err "no signing key"%string
  end.

#[export] Instance state : IState :=
  {| State := node;
     OtherMsg := bool;
     DirectoryBlock := list byte;
     constants_NETWORK_MAIN := 0%Z;
     constants_NETWORK_TEST := 1%Z;
     constants_NETWORK_LOCAL := 2%Z;
     constants_SERVER_MODE := 1%Z;
     State_GetTimestamp := clock;
     GetPreviousDirectoryBlock := previous_key;
     GetKeyMR := fun blk => Some blk;
     GetProcessList := slots;
     IMsg_FollowerExecute := node_follower;
     EndOfPeriod := node_end_of_period;
     GetNetworkNumber := network;
     ProcessEndOfBlock := node_end_of_block;
     GetServerState := server;
     SignSignable_EOM := fun _ s => node_sign s;
     SignSignable_DBS := fun _ s => node_sign s |}.

Definition stamp : list byte := [x00; x00; x5a; x1b; x2c; x3d].
Definition chain : list byte := repeat x07 32.
Definition seal : list byte := repeat x2a 96.

(** An unsigned and a signed minute-close message of minute 9. *)
Definition eom_unsigned : EOM :=
  {| Timestamp := stamp; Minute := x09; DirectoryBlockHeight := 70000%N;
     IdentityChainID := Some chain; Signature := None; hash := None |}.

Definition eom_signed : EOM := set_Signature (Some seal) eom_unsigned.

Definition eom_minute3 : EOM := set_Minute x03 eom_unsigned.

(** A message no decoder accepts: minute 10. *)
Definition eom_minute10 : EOM := set_Minute x0a eom_unsigned.

(** A local-network server node with two messages waiting in slot 0, the
    second a minute-close message: its replay never returns. *)
Definition local_node : node :=
  {| network := 2%Z; server := 1%Z; clock := stamp;
     previous_key := Some chain; signing_key := Some (repeat x11 32);
     slots := [[IMsg_other true; IMsg_EOM eom_minute3]];
     minutes_ended := []; blocks_closed := 0 |}.

(** The wire forms of the two messages. *)
Definition wire_of (m : EOM) : list byte :=
  match MarshalBinary m with
  | Ok bs => bs
  | _ => []
  end.

Definition wire_unsigned : list byte := Eval vm_compute in wire_of eom_unsigned.
Definition wire_signed : list byte := Eval vm_compute in wire_of eom_signed.

(** A payload whose minute byte is 10: tag, timestamp, minute, and the rest
    of an encoded message. *)
Definition wire_minute10 : list byte :=
  x00 :: stamp ++ x0a :: skipn 8 wire_unsigned.

Definition with_network (n : Z) (s : node) : node :=
  Build_node n (server s) (clock s) (previous_key s) (signing_key s)
    (slots s) (minutes_ended s) (blocks_closed s).

Definition with_server (v : Z) (s : node) : node :=
  Build_node (network s) v (clock s) (previous_key s) (signing_key s)
    (slots s) (minutes_ended s) (blocks_closed s).

Definition with_slots (l : list (list (IMsg bool))) (s : node) : node :=
  Build_node (network s) (server s) (clock s) (previous_key s)
    (signing_key s) l (minutes_ended s) (blocks_closed s).

(** The same node with two messages of another kind in slot 0: a node on
    which the minute-close transition runs to its end. *)
Definition quiet_node : node :=
  with_slots [[IMsg_other true; IMsg_other true]] local_node.

Definition without_signing_key (s : node) : node :=
  Build_node (network s) (server s) (clock s) (previous_key s) None
    (slots s) (minutes_ended s) (blocks_closed s).

End Reference.

(** * Properties *)

(** ** Bytes and big-endian words *)

Lemma to_N_byte_of_N (n : N) : Byte.to_N (byte_of_N n) = (n mod 256)%N.
Proof.
  unfold byte_of_N.
  destruct (Byte.of_N (n mod 256)) as [b|] eqn:E.
  - now apply Byte.to_of_N.
  - apply Byte.of_N_None_iff in E.
    pose proof (N.mod_upper_bound n 256). lia.
Qed.

(** Bit [n] of the byte taken at bit offset [k] and put back there. *)
Lemma testbit_byte_at (v : N) (k n : N) :
  N.testbit (N.shiftl (N.shiftr v k mod 2 ^ 8) k) n =
  (k <=? n)%N && (n <? k + 8)%N && N.testbit v n.
Proof.
  destruct (N.leb_spec k n) as [Hk|Hk]; cbn [andb].
  - rewrite N.shiftl_spec_high' by assumption.
    destruct (N.ltb_spec n (k + 8)) as [Hn|Hn]; cbn [andb].
    + rewrite N.mod_pow2_bits_low by lia.
      rewrite N.shiftr_spec'. f_equal. lia.
    + now rewrite N.mod_pow2_bits_high by lia.
  - now rewrite N.shiftl_spec_low.
Qed.

Lemma Uint32_PutUint32 (v : N) :
  uint32_range v ->
  BigEndian_Uint32 (BigEndian_PutUint32 v) = Some v.
Proof.
  unfold uint32_range, BigEndian_Uint32, BigEndian_PutUint32. intros Hv.
  rewrite !to_N_byte_of_N. f_equal.
  change 256%N with (2 ^ 8)%N.
  replace (v mod 2 ^ 8)%N with (N.shiftl (N.shiftr v 0 mod 2 ^ 8) 0)
    by (now rewrite N.shiftr_0_r, N.shiftl_0_r).
  apply N.bits_inj. intros n.
  rewrite !N.lor_spec, !testbit_byte_at.
  destruct (N.ltb_spec n 32) as [Hn|Hn].
  - destruct (N.testbit v n); [|now rewrite !andb_false_r].
    rewrite !andb_true_r.
    destruct (N.ltb_spec n 8), (N.ltb_spec n 16), (N.ltb_spec n 24);
      repeat match goal with
             | |- context [(?a <=? ?b)%N] => destruct (N.leb_spec a b)
             | |- context [(?a <? ?b)%N] => destruct (N.ltb_spec a b)
             end; simpl; try reflexivity; lia.
  - assert (Hb : N.testbit v n = false).
    { rewrite <- (N.mod_small v (2 ^ 32)) by assumption.
      now apply N.mod_pow2_bits_high. }
    rewrite Hb. now rewrite !andb_false_r.
Qed.

(** ** The codec *)

(** Case analysis on every [match] of a hypothesis about the decoder. *)
Ltac split_decode H :=
  repeat match type of H with
         | context [match ?x with _ => _ end] =>
             let E := fresh "E" in destruct x eqn:E; cbn [deferred_recover] in H
         | context [if ?x then _ else _] =>
             let E := fresh "E" in destruct x eqn:E; cbn [deferred_recover] in H
         end.

Section CodecProperties.
Context `{Primitives}.

(** The payload is the tag, the timestamp, the minute, the height and the
    identity, in this order. *)
Lemma MarshalForSignature_Ok (m : EOM) (data : list byte) :
  MarshalForSignature m = Ok data ->
  exists d id h,
    marshal_binary (Timestamp m) = Ok d /\
    IdentityChainID m = Some id /\
    marshal_binary id = Ok h /\
    data = byte_of_Z constants_EOM_MSG
             :: d ++ Minute m :: BigEndian_PutUint32 (DirectoryBlockHeight m) ++ h.
Proof.
  unfold MarshalForSignature, Type_.
  destruct (marshal_binary (Timestamp m)) as [d| |]; try discriminate.
  destruct (IdentityChainID m) as [id|]; try discriminate.
  destruct (marshal_binary id) as [h| |] eqn:Eh; try discriminate.
  intros [= <-]. exists d, id, h. repeat split; trivial.
  now rewrite <- !app_assoc.
Qed.

(** The payload reads only the four signed fields. *)
Lemma MarshalForSignature_ext (m m' : EOM) :
  Timestamp m' = Timestamp m -> Minute m' = Minute m ->
  DirectoryBlockHeight m' = DirectoryBlockHeight m ->
  IdentityChainID m' = IdentityChainID m ->
  MarshalForSignature m' = MarshalForSignature m.
Proof.
  unfold MarshalForSignature, Type_. now intros -> -> -> ->.
Qed.

Lemma GetHash_coherent (m : EOM) (data : list byte) :
  hash_coherent m -> MarshalForSignature m = Ok data ->
  snd (GetHash m) = Ok (primitives_Sha data).
Proof.
  unfold hash_coherent, GetHash. intros Hc Hm.
  destruct (hash m) as [h|].
  - destruct Hc as (data' & Hd & ->). simpl. congruence.
  - now rewrite Hm.
Qed.

(** Decoding a payload followed by the bytes [sigb], into a receiver [r]:
    everything up to the identity is read back, and [sigb] is what is left
    for the signature. *)
Lemma decode_payload (L : PrimitivesLaws _) (m r : EOM) (payload sigb : list byte) :
  (Byte.to_N (Minute m) <= 9)%N ->
  uint32_range (DirectoryBlockHeight m) ->
  MarshalForSignature m = Ok payload ->
  UnmarshalBinaryData_body r (payload ++ sigb) =
    let r' := set_IdentityChainID (IdentityChainID m)
                (set_DirectoryBlockHeight (DirectoryBlockHeight m)
                   (set_Minute (Minute m) (set_Timestamp (Timestamp m) r))) in
    if (0 <? List.length sigb)%nat
    then
      match unmarshal_binary_data (zero_value (T:=primitives_Signature)) sigb with
      | (_, Panic p) => Panics (Build_frame r' sigb None) p
      | (_, Err e) => Returns (Build_frame r' [] (Some e))
      | (sig, Ok _) =>
          Returns (Build_frame (set_Signature (Some sig) r') (payload ++ sigb) None)
      end
    else Returns (Build_frame r' (payload ++ sigb) None).
Proof.
  intros Hmin Hh Hm.
  destruct (MarshalForSignature_Ok m _ Hm) as (d & id & h & Hd & Hid & Hhb & ->).
  unfold UnmarshalBinaryData_body.
  cbn [app slice_from List.length Nat.leb skipn].
  rewrite <- app_assoc. cbn [app].
  rewrite (Timestamp_roundtrip L _ (Timestamp r) _ _ Hd).
  cbn [Minute set_Minute].
  replace (Byte.to_N (Minute m) <? 0)%N with false
    by (symmetry; apply N.ltb_ge; lia).
  replace (10 <=? Byte.to_N (Minute m))%N with false
    by (symmetry; apply N.leb_gt; lia).
  cbn [orb].
  change (BigEndian_PutUint32 (DirectoryBlockHeight m))
    with ([byte_of_N (N.shiftr (DirectoryBlockHeight m) 24);
           byte_of_N (N.shiftr (DirectoryBlockHeight m) 16);
           byte_of_N (N.shiftr (DirectoryBlockHeight m) 8);
           byte_of_N (DirectoryBlockHeight m)]) in *.
  cbn [app slice_to slice_from List.length Nat.leb skipn firstn].
  pose proof (Uint32_PutUint32 _ Hh) as Hu.
  unfold BigEndian_PutUint32 in Hu. rewrite Hu.
  rewrite (Hash_roundtrip L _ zero_value _ _ Hhb).
  rewrite Hid. cbv zeta. cbn [app]. rewrite <- ?app_assoc. reflexivity.
Qed.

(** C1. Round trip: a valid minute-close message (minute at most 9, height a
    32-bit value, cached hash coherent with its fields) that [MarshalBinary]
    encodes to [bs] is read back from [bs] by [UnmarshalBinaryData] into a
    receiver that has no signature and no cached hash, such as [new(EOM)]:
    the decode succeeds, timestamp, minute, height, identity and signature
    (present or absent) are those of the message, and [GetHash] gives the
    same hash for both. *)
Theorem EOM_roundtrip (L : PrimitivesLaws _) (m r : EOM) (bs : list byte) :
  (Byte.to_N (Minute m) <= 9)%N ->
  uint32_range (DirectoryBlockHeight m) ->
  hash_coherent m ->
  Signature r = None -> hash r = None ->
  MarshalBinary m = Ok bs ->
  exists m' h,
    UnmarshalBinaryData r bs = Returns (Build_frame m' bs None) /\
    Timestamp m' = Timestamp m /\
    Minute m' = Minute m /\
    DirectoryBlockHeight m' = DirectoryBlockHeight m /\
    IdentityChainID m' = IdentityChainID m /\
    Signature m' = Signature m /\
    snd (GetHash m') = Ok h /\ snd (GetHash m) = Ok h.
Proof.
  intros Hmin Hh Hc Hrs Hrh Hm.
  unfold MarshalBinary, GetSignature in Hm.
  destruct (MarshalForSignature m) as [payload| |] eqn:Hp; try discriminate.
  assert (Hfin : forall m' : EOM,
             Timestamp m' = Timestamp m -> Minute m' = Minute m ->
             DirectoryBlockHeight m' = DirectoryBlockHeight m ->
             IdentityChainID m' = IdentityChainID m -> hash m' = None ->
             snd (GetHash m') = Ok (primitives_Sha payload)).
  { intros m' H1 H2 H3 H4 H5. apply GetHash_coherent.
    - unfold hash_coherent. now rewrite H5.
    - now rewrite (MarshalForSignature_ext m m'). }
  unfold UnmarshalBinaryData.
  destruct (Signature m) as [sig|] eqn:Hs.
  - destruct (marshal_binary sig) as [sigb| |] eqn:Hsb; try discriminate.
    injection Hm as <-.
    rewrite (decode_payload L m r _ sigb Hmin Hh Hp). cbv zeta.
    assert (Hne : (0 <? List.length sigb)%nat = true).
    { apply Nat.ltb_lt. pose proof (Signature_nonempty L _ _ Hsb).
      destruct sigb; [congruence | simpl; lia]. }
    rewrite Hne.
    pose proof (Signature_roundtrip L sig zero_value _ [] Hsb) as Hr.
    rewrite app_nil_r in Hr. rewrite Hr. cbn [deferred_recover].
    eexists _, (primitives_Sha payload). split; [reflexivity|].
    cbn. repeat split; trivial.
    + apply Hfin; trivial.
    + now apply GetHash_coherent.
  - injection Hm as <-.
    pose proof (decode_payload L m r _ [] Hmin Hh Hp) as Hd.
    rewrite app_nil_r in Hd. rewrite Hd. cbn.
    eexists _, (primitives_Sha payload). split; [reflexivity|].
    cbn. repeat split; trivial.
    + apply Hfin; trivial.
    + now apply GetHash_coherent.
Qed.

(** The only way out of the decoder with a nil error is its last line,
    [return data, nil], reached after the range check on the minute. *)
Lemma decode_success (r : EOM) (data : list byte) (f : decode_frame) :
  UnmarshalBinaryData r data = Returns f -> err f = None ->
  newData f = data /\ (Byte.to_N (Minute (receiver f)) < 10)%N /\
  exists tag rest, data = tag :: rest.
Proof.
  unfold UnmarshalBinaryData, UnmarshalBinaryData_body. intros Hd He.
  assert (Hdata : exists tag rest, data = tag :: rest).
  { destruct data as [|tag rest]; [|now eauto].
    cbn in Hd. injection Hd as <-. discriminate. }
  split_decode Hd; injection Hd as <-; cbn in He; try discriminate;
    (split; [reflexivity | split; [|assumption]]);
    cbn; cbn in *;
    match goal with
    | E : (_ || (10 <=? ?x)%N) = false |- _ =>
        apply orb_false_iff in E; destruct E as [_ E];
        apply N.leb_gt in E; exact E
    end.
Qed.

(** C6. Range rejection: when the byte that follows the timestamp is 10 or
    more, [UnmarshalBinaryData] returns the nil slice and the error "Minute
    number is out of range"; and a decode that returns a nil error leaves a
    minute below 10 in the message. *)
Theorem minute_range_rejection :
  (forall (r : EOM) (tag b : byte) (body rest : list byte)
          (ts : interfaces_Timestamp),
      unmarshal_binary_data (Timestamp r) body = (ts, Ok (b :: rest)) ->
      (10 <= Byte.to_N b)%N ->
      UnmarshalBinaryData r (tag :: body) =
        Returns (Build_frame (set_Minute b (set_Timestamp ts r)) []
                   (Some "Minute number is out of range"%string))) /\
  (forall (r : EOM) (data : list byte) (f : decode_frame),
      UnmarshalBinaryData r data = Returns f -> err f = None ->
      (Byte.to_N (Minute (receiver f)) < 10)%N).
Proof.
  split.
  - intros r tag b body rest ts Hts Hb.
    unfold UnmarshalBinaryData, UnmarshalBinaryData_body.
    cbn [slice_from List.length Nat.leb skipn]. rewrite Hts.
    cbn [Minute set_Minute].
    replace (10 <=? Byte.to_N b)%N with true by (symmetry; now apply N.leb_le).
    now rewrite orb_true_r.
  - intros r data f Hd He. now apply (decode_success r data f).
Qed.

(** C7. Decode totality: [UnmarshalBinaryData] returns on every input and
    every receiver, in particular on every prefix of an encoded message;
    a panic of its body, such as an index or a slice bound out of range, is
    returned as the error "Error unmarshalling: ..."; and each truncation
    the decoder meets in its own fields (no tag byte, no minute byte, fewer
    than four height bytes) comes back as such an error. *)
Theorem decode_total :
  (forall (r : EOM) (data : list byte),
      exists f, UnmarshalBinaryData r data = Returns f) /\
  (forall (r m : EOM) (bs : list byte) (n : nat),
      MarshalBinary m = Ok bs ->
      exists f, UnmarshalBinaryData r (firstn n bs) = Returns f) /\
  (forall (r : EOM) (data : list byte) (f : decode_frame) (p : panic_value),
      UnmarshalBinaryData_body r data = Panics f p ->
      UnmarshalBinaryData r data =
        Returns (Build_frame (receiver f) (newData f)
                   (Some ("Error unmarshalling: " ++ p)%string))) /\
  (forall r : EOM,
      UnmarshalBinaryData r [] =
        Returns (Build_frame r []
                   (Some ("Error unmarshalling: " ++ slice_bounds_out_of_range)%string))) /\
  (forall (r : EOM) (tag : byte) (body : list byte) (ts : interfaces_Timestamp),
      unmarshal_binary_data (Timestamp r) body = (ts, Ok []) ->
      UnmarshalBinaryData r (tag :: body) =
        Returns (Build_frame (set_Timestamp ts r) []
                   (Some ("Error unmarshalling: " ++ index_out_of_range)%string))) /\
  (forall (r : EOM) (tag b : byte) (body rest : list byte)
          (ts : interfaces_Timestamp),
      unmarshal_binary_data (Timestamp r) body = (ts, Ok (b :: rest)) ->
      (Byte.to_N b < 10)%N -> (List.length rest < 4)%nat ->
      UnmarshalBinaryData r (tag :: body) =
        Returns (Build_frame (set_Minute b (set_Timestamp ts r)) rest
                   (Some ("Error unmarshalling: " ++ slice_bounds_out_of_range)%string))).
Proof.
  assert (Htotal : forall (r : EOM) (data : list byte),
             exists f, UnmarshalBinaryData r data = Returns f).
  { intros r data. unfold UnmarshalBinaryData.
    destruct (UnmarshalBinaryData_body r data) as [f|f p]; cbn; eauto. }
  split; [|split; [|split; [|split; [|split]]]].
  - exact Htotal.
  - intros r m bs n _. apply Htotal.
  - intros r data f p Hb. unfold UnmarshalBinaryData. now rewrite Hb.
  - reflexivity.
  - intros r tag body ts Hts.
    unfold UnmarshalBinaryData, UnmarshalBinaryData_body.
    cbn [slice_from List.length Nat.leb skipn]. now rewrite Hts.
  - intros r tag b body rest ts Hts Hb Hlen.
    unfold UnmarshalBinaryData, UnmarshalBinaryData_body.
    cbn [slice_from List.length Nat.leb skipn]. rewrite Hts.
    cbn [Minute set_Minute].
    replace (10 <=? Byte.to_N b)%N with false by (symmetry; now apply N.leb_gt).
    replace (Byte.to_N b <? 0)%N with false by (symmetry; apply N.ltb_ge; lia).
    cbn [orb]. unfold slice_to.
    replace (4 <=? List.length rest)%nat with false
      by (symmetry; apply Nat.leb_gt; lia).
    reflexivity.
Qed.

(** C10. On success the slice [UnmarshalBinaryData] returns is its whole
    input [data], tag byte included, and not the bytes left after the
    message. *)
Theorem decode_returns_whole_input (r : EOM) (data : list byte) (f : decode_frame) :
  UnmarshalBinaryData r data = Returns f -> err f = None ->
  newData f = data /\ exists tag rest, newData f = tag :: rest.
Proof.
  intros Hd He. destruct (decode_success r data f Hd He) as (-> & _ & Ht).
  now split.
Qed.

End CodecProperties.

(** ** The transitions *)

Section TransitionProperties.
Context `{IState}.

Lemma replay_done (s s' : State) (msgs : list (IMsg OtherMsg)) :
  replayed s msgs s' ->
  replay msgs s = Build_run (Done tt) s' (map Call_FollowerExecute msgs).
Proof.
  induction 1 as [s|s s1 s2 msg rest Hx _ IH]; [reflexivity|].
  cbn [replay]. unfold bind at 1, call_FollowerExecute.
  rewrite Hx. cbn. now rewrite IH.
Qed.

(** The replay stops at the first message whose follower execution does
    not return a nil error; [stop] is how the loop ends there. *)
Lemma replay_stops (s s1 s2 : State) (pre post : list (IMsg OtherMsg))
    (x : IMsg OtherMsg) (bad : res unit) (stop : panic_value) :
  replayed s pre s1 ->
  IMsg_FollowerExecute x s1 = (s2, bad) ->
  match bad with
  | Ok _ => False
  | Err e => stop = ("Failed to build state in EOM: " ++ e)%string
  | Panic v => stop = v
  end ->
  replay (pre ++ x :: post) s =
    Build_run (Aborted stop) s2 (map Call_FollowerExecute (pre ++ [x])).
Proof.
  induction 1 as [s|s s1 s2' msg rest Hx _ IH]; intros Hbad Hstop.
  - cbn [app replay]. unfold bind at 1, call_FollowerExecute.
    rewrite Hbad. destruct bad; [contradiction| |]; subst stop; reflexivity.
  - cbn [app replay]. unfold bind at 1, call_FollowerExecute.
    rewrite Hx. cbn. now rewrite (IH Hbad Hstop).
Qed.

Lemma replay_no_block_step (msgs : list (IMsg OtherMsg)) (s : State) :
  filter is_end_of_block_step (trace (replay msgs s)) = [].
Proof.
  revert s. induction msgs as [|msg rest IH]; intros s; [reflexivity|].
  cbn [replay]. unfold bind at 1, call_FollowerExecute.
  destruct (IMsg_FollowerExecute msg s) as [s1 [u|e|v]]; cbn; auto.
Qed.

(** The switch makes no call and leaves the node as it is. *)
Lemma network_switch_frame (s : State) :
  final (network_switch s) = s /\ trace (network_switch s) = [].
Proof.
  unfold network_switch, bind, gets, panic, ret. cbn.
  repeat match goal with |- context [if ?b then _ else _] => destruct b end;
    now split.
Qed.

Lemma network_switch_local (D : switch_cases_distinct) (s : State) :
  GetNetworkNumber s = constants_NETWORK_LOCAL ->
  network_switch s = Build_run (Done tt) s [].
Proof.
  destruct D as (_ & D1 & D2). intros Hn.
  unfold network_switch, bind, gets, panic, ret. cbn. rewrite Hn.
  rewrite (proj2 (Z.eqb_neq _ _)) by congruence.
  rewrite (proj2 (Z.eqb_neq _ _)) by congruence.
  now rewrite Z.eqb_refl.
Qed.

Lemma network_switch_not_local (s : State) :
  GetNetworkNumber s <> constants_NETWORK_LOCAL ->
  network_switch s =
    Build_run
      (Aborted
         (if ((GetNetworkNumber s =? constants_NETWORK_MAIN)
              || (GetNetworkNumber s =? constants_NETWORK_TEST))%Z
          then "Not implemented yet"%string
          else ("Not implemented yet: Network Number "
                  ++ format_int (GetNetworkNumber s))%string))
      s [].
Proof.
  intros Hn. unfold network_switch, bind, gets, panic, ret. cbn.
  destruct (GetNetworkNumber s =? constants_NETWORK_MAIN)%Z; [reflexivity|].
  destruct (GetNetworkNumber s =? constants_NETWORK_TEST)%Z; [reflexivity|].
  now rewrite (proj2 (Z.eqb_neq _ _)) by assumption.
Qed.

Lemma network_switch_done (s : State) (u : unit) :
  outcome (network_switch s) = Done u ->
  GetNetworkNumber s = constants_NETWORK_LOCAL.
Proof.
  destruct (Z.eq_dec (GetNetworkNumber s) constants_NETWORK_LOCAL) as [E|E];
    [trivial|].
  now rewrite (network_switch_not_local s E).
Qed.

Lemma last_minute_run (m : EOM) (s : State) :
  last_minute m s =
    if (Byte.to_N (Minute m) =? 9)%N
    then Build_run (Done tt) (ProcessEndOfBlock s)
           (Call_ProcessEndOfBlock
              :: if (GetServerState (ProcessEndOfBlock s) =? constants_SERVER_MODE)%Z
                 then [Send_LeaderInMsgQueue (IMsg_EOM m)] else [])
    else Build_run (Done tt) s [].
Proof.
  unfold last_minute. destruct (Byte.to_N (Minute m) =? 9)%N; [|reflexivity].
  unfold bind, call, gets, send, ret. cbn.
  now destruct (GetServerState (ProcessEndOfBlock s) =? constants_SERVER_MODE)%Z.
Qed.

Lemma bind_Done {A B : Type} (c : Exec A) (k : A -> Exec B) (s s1 : State)
    (a : A) (tr : list Call) :
  c s = Build_run (Done a) s1 tr ->
  bind c k s =
    Build_run (outcome (k a s1)) (final (k a s1)) (tr ++ trace (k a s1)).
Proof. intros E. unfold bind. now rewrite E. Qed.

Lemma bind_Aborted {A B : Type} (c : Exec A) (k : A -> Exec B) (s s1 : State)
    (v : panic_value) (tr : list Call) :
  c s = Build_run (Aborted v) s1 tr ->
  bind c k s = Build_run (Aborted v) s1 tr.
Proof. intros E. unfold bind. now rewrite E. Qed.

Lemma bind_assoc {A B C : Type} (c : Exec A) (k : A -> Exec B)
    (k' : B -> Exec C) (s : State) :
  bind (bind c k) k' s = bind c (fun a => bind (k a) k') s.
Proof.
  unfold bind. destruct (c s) as [[a|v] s1 tr1]; cbn; [|reflexivity].
  destruct (k a s1) as [[b|v] s2 tr2]; cbn; [|reflexivity].
  now rewrite app_assoc.
Qed.

Lemma bind_ext {A B : Type} (c : Exec A) (k k' : A -> Exec B) (s : State) :
  (forall a s', k a s' = k' a s') -> bind c k s = bind c k' s.
Proof.
  intros E. unfold bind. destruct (c s) as [[a|v] s1 tr1]; cbn; [|reflexivity].
  now rewrite E.
Qed.

(** [FollowerExecute] is its first two steps, then the switch, then the
    last-minute block. *)
Lemma FollowerExecute_run (m : EOM) (s : State) :
  FollowerExecute m s =
    let r1 := replay_and_notify m s in
    match outcome r1 with
    | Aborted v => Build_run (Aborted v) (final r1) (trace r1)
    | Done _ =>
        match outcome (network_switch (final r1)) with
        | Aborted v => Build_run (Aborted v) (final r1) (trace r1)
        | Done _ =>
            let r3 := last_minute m (final r1) in
            Build_run (Done None) (final r3) (trace r1 ++ trace r3)
        end
    end.
Proof.
  assert (E : FollowerExecute m s =
              bind (replay_and_notify m)
                (fun _ => bind network_switch
                   (fun _ => bind (last_minute m) (fun _ => ret None))) s).
  { unfold FollowerExecute, replay_and_notify.
    rewrite bind_assoc. apply bind_ext. intros slot s'.
    now rewrite bind_assoc. }
  rewrite E. cbv zeta.
  destruct (replay_and_notify m s) as [[u|v] s1 tr1] eqn:E1;
    cbn [outcome final trace].
  - rewrite (bind_Done _ _ _ _ _ _ E1).
    destruct (network_switch_frame s1) as [Hf Ht].
    destruct (network_switch s1) as [[u'|v] s2 tr2] eqn:E2;
      cbn [outcome final trace] in *; subst s2 tr2.
    + rewrite (bind_Done _ _ _ _ _ _ E2).
      assert (E3 : exists s3 tr3, last_minute m s1 = Build_run (Done tt) s3 tr3).
      { rewrite last_minute_run.
        destruct (Byte.to_N (Minute m) =? 9)%N; eauto. }
      destruct E3 as (s3 & tr3 & E3).
      rewrite (bind_Done _ _ _ _ _ _ E3), E3. unfold ret.
      cbn [outcome final trace app]. now rewrite !app_nil_r.
    + rewrite (bind_Aborted _ _ _ _ _ _ E2).
      cbn [outcome final trace app]. now rewrite !app_nil_r.
  - now rewrite (bind_Aborted _ _ _ _ _ _ E1).
Qed.

Lemma replay_and_notify_run (m : EOM) (s : State)
    (slot : list (IMsg OtherMsg)) (others : list (list (IMsg OtherMsg))) :
  GetProcessList s = slot :: others ->
  replay_and_notify m s =
    let r := replay slot s in
    match outcome r with
    | Aborted v => Build_run (Aborted v) (final r) (trace r)
    | Done _ =>
        Build_run (Done tt) (EndOfPeriod (int_of_byte (Minute m)) (final r))
          (trace r ++ [Call_EndOfPeriod (int_of_byte (Minute m))])
    end.
Proof.
  intros Hpl. unfold replay_and_notify, process_list_slot0.
  unfold bind at 1 2, gets. cbn. rewrite Hpl. unfold ret at 1. cbn.
  unfold bind, call.
  destruct (replay slot s) as [[u|v] s1 tr1]; cbn; reflexivity.
Qed.

Lemma replay_and_notify_no_block_step (m : EOM) (s : State) :
  filter is_end_of_block_step (trace (replay_and_notify m s)) = [].
Proof.
  destruct (GetProcessList s) as [|slot others] eqn:Hpl.
  - unfold replay_and_notify, process_list_slot0, bind, gets, panic. cbn.
    now rewrite Hpl.
  - rewrite (replay_and_notify_run m s slot others Hpl). cbv zeta.
    pose proof (replay_no_block_step slot s) as Hr.
    destruct (replay slot s) as [[u|v] s1 tr1]; cbn in *; trivial.
    rewrite filter_app, Hr. reflexivity.
Qed.

(** Every replay is of one of two kinds: all of the slot succeeds, or there
    is a first message whose follower execution does not return nil. *)
Lemma replay_cases (slot : list (IMsg OtherMsg)) (s : State) :
  (exists s1, replayed s slot s1) \/
  (exists pre x post s1 s2 bad,
      slot = pre ++ x :: post /\ replayed s pre s1 /\
      IMsg_FollowerExecute x s1 = (s2, bad) /\
      forall u : unit, bad <> Ok u).
Proof.
  revert s. induction slot as [|msg rest IH]; intros s.
  - left. exists s. constructor.
  - destruct (IMsg_FollowerExecute msg s) as [s1 [[]|e|v]] eqn:Hx.
    + destruct (IH s1) as [(s2 & Hok) | (pre & x & post & t1 & t2 & bad & -> & Hok & Hbad & Hne)].
      * left. exists s2. now apply replayed_cons with s1.
      * right. exists (msg :: pre), x, post, t1, t2, bad.
        repeat split; trivial. now apply replayed_cons with s1.
    + right. exists [], msg, rest, s, s1, (Err e).
      repeat split; trivial; [constructor | discriminate].
    + right. exists [], msg, rest, s, s1, (Panic v).
      repeat split; trivial; [constructor | discriminate].
Qed.

(** C2. Replay ordering: with the messages [slot] in slot 0 of the process
    list, [FollowerExecute] runs the follower execution of each of them in
    list order and only then notifies the ledger that the minute ended;
    after that it makes none of these calls again.  When the execution of a
    message returns an error, or panics, the transition aborts there: the
    messages up to that one were executed in order, no later message is and
    the ledger is not notified.  One of the two always is the case. *)
Theorem replay_in_list_order (m : EOM) (s : State)
    (slot : list (IMsg OtherMsg)) (others : list (list (IMsg OtherMsg))) :
  GetProcessList s = slot :: others ->
  (forall s1 : State,
      replayed s slot s1 ->
      exists tl,
        trace (FollowerExecute m s) =
          map Call_FollowerExecute slot
            ++ Call_EndOfPeriod (int_of_byte (Minute m)) :: tl /\
        forallb is_end_of_block_step tl = true) /\
  (forall (pre post : list (IMsg OtherMsg)) (x : IMsg OtherMsg)
          (s1 s2 : State) (e : error),
      slot = pre ++ x :: post ->
      replayed s pre s1 ->
      IMsg_FollowerExecute x s1 = (s2, Err e) ->
      FollowerExecute m s =
        Build_run (Aborted ("Failed to build state in EOM: " ++ e)%string) s2
          (map Call_FollowerExecute (pre ++ [x]))) /\
  (forall (pre post : list (IMsg OtherMsg)) (x : IMsg OtherMsg)
          (s1 s2 : State) (v : panic_value),
      slot = pre ++ x :: post ->
      replayed s pre s1 ->
      IMsg_FollowerExecute x s1 = (s2, Panic v) ->
      FollowerExecute m s =
        Build_run (Aborted v) s2 (map Call_FollowerExecute (pre ++ [x]))) /\
  ((exists s1, replayed s slot s1) \/
   (exists pre x post s1 s2 bad,
       slot = pre ++ x :: post /\ replayed s pre s1 /\
       IMsg_FollowerExecute x s1 = (s2, bad) /\
       forall u : unit, bad <> Ok u)).
Proof.
  intros Hpl.
  pose proof (FollowerExecute_run m s) as Hrun. cbv zeta in Hrun.
  rewrite (replay_and_notify_run m s slot others Hpl) in Hrun. cbv zeta in Hrun.
  split; [|split; [|split; [|apply replay_cases]]].
  - intros s1 Hok. rewrite (replay_done _ _ _ Hok) in Hrun.
    cbn [outcome final trace] in Hrun. rewrite Hrun.
    set (s2 := EndOfPeriod (int_of_byte (Minute m)) s1).
    destruct (outcome (network_switch s2)) as [u|v]; cbn [trace].
    + rewrite <- app_assoc. cbn [app].
      eexists. split; [reflexivity|].
      rewrite last_minute_run.
      destruct (Byte.to_N (Minute m) =? 9)%N; cbn [trace]; [|reflexivity].
      now destruct (GetServerState (ProcessEndOfBlock s2) =? constants_SERVER_MODE)%Z.
    + exists []. now split.
  - intros pre post x s1 s2 e -> Hok Hx.
    rewrite (replay_stops _ _ _ _ post _ (Err e)
               ("Failed to build state in EOM: " ++ e)%string
               Hok Hx eq_refl) in Hrun.
    exact Hrun.
  - intros pre post x s1 s2 v -> Hok Hx.
    rewrite (replay_stops _ _ _ _ post _ (Panic v) v Hok Hx eq_refl) in Hrun.
    exact Hrun.
Qed.

(** C3. Last-minute trigger: a [FollowerExecute] of minute 9 that runs to
    its end calls [ProcessEndOfBlock] exactly once and then sends this same
    message on the leader-input queue exactly when the node's server state
    is [SERVER_MODE], and not otherwise; with any other minute it makes
    neither the call nor the send.  (A transition of minute 9 that aborts
    in the replay or in the network switch stops before this step and
    makes neither.) *)
Theorem last_minute_trigger (m : EOM) (s : State) :
  (Byte.to_N (Minute m) <> 9%N ->
   filter is_end_of_block_step (trace (FollowerExecute m s)) = []) /\
  (Byte.to_N (Minute m) = 9%N ->
   forall o : option error,
     outcome (FollowerExecute m s) = Done o ->
     final (FollowerExecute m s) =
       ProcessEndOfBlock (final (replay_and_notify m s)) /\
     filter is_end_of_block_step (trace (FollowerExecute m s)) =
       Call_ProcessEndOfBlock
         :: if (GetServerState (final (FollowerExecute m s))
                  =? constants_SERVER_MODE)%Z
            then [Send_LeaderInMsgQueue (IMsg_EOM m)] else []) /\
  (forall v : panic_value,
     outcome (FollowerExecute m s) = Aborted v ->
     filter is_end_of_block_step (trace (FollowerExecute m s)) = []).
Proof.
  pose proof (FollowerExecute_run m s) as Hrun. cbv zeta in Hrun.
  pose proof (replay_and_notify_no_block_step m s) as Hpre.
  destruct (replay_and_notify m s) as [[u|v1] s1 tr1];
    cbn [outcome final trace] in *.
  - destruct (outcome (network_switch s1)) as [u'|v2].
    + rewrite last_minute_run in Hrun. rewrite Hrun.
      split; [|split].
      * intros Hne. apply N.eqb_neq in Hne. rewrite Hne.
        cbn [trace]. now rewrite app_nil_r.
      * intros He o _. apply N.eqb_eq in He. rewrite He.
        cbn [final trace]. split; [reflexivity|].
        rewrite filter_app, Hpre. cbn [app].
        now destruct (GetServerState (ProcessEndOfBlock s1) =? constants_SERVER_MODE)%Z.
      * intros v. destruct (Byte.to_N (Minute m) =? 9)%N; discriminate.
    + rewrite Hrun. cbn [outcome trace].
      split; [|split]; trivial. discriminate.
  - rewrite Hrun. cbn [outcome trace].
    split; [|split]; trivial. discriminate.
Qed.

(** C4. Network-profile handling: once the replay and the ledger
    notification are done and the node is in [s1], [FollowerExecute] under
    the local profile makes no call for the profile and goes on to the
    last-minute step, returning a nil error; under the main or the test
    profile it panics with "Not implemented yet", and under any other
    profile value with "Not implemented yet: Network Number n"; it never
    returns when the profile is not the local one. *)
Theorem network_profile_handling (D : switch_cases_distinct) (m : EOM)
    (s s1 : State) (tr : list Call) :
  replay_and_notify m s = Build_run (Done tt) s1 tr ->
  (GetNetworkNumber s1 = constants_NETWORK_LOCAL ->
   FollowerExecute m s =
     Build_run (Done None) (final (last_minute m s1))
       (tr ++ trace (last_minute m s1))) /\
  (GetNetworkNumber s1 = constants_NETWORK_MAIN \/
   GetNetworkNumber s1 = constants_NETWORK_TEST ->
   FollowerExecute m s =
     Build_run (Aborted "Not implemented yet"%string) s1 tr) /\
  (GetNetworkNumber s1 <> constants_NETWORK_MAIN ->
   GetNetworkNumber s1 <> constants_NETWORK_TEST ->
   GetNetworkNumber s1 <> constants_NETWORK_LOCAL ->
   FollowerExecute m s =
     Build_run
       (Aborted ("Not implemented yet: Network Number "
                   ++ format_int (GetNetworkNumber s1))%string) s1 tr) /\
  (forall o : option error,
     outcome (FollowerExecute m s) = Done o ->
     GetNetworkNumber s1 = constants_NETWORK_LOCAL).
Proof.
  intros Hpre.
  pose proof (FollowerExecute_run m s) as Hrun. cbv zeta in Hrun.
  rewrite Hpre in Hrun. cbn [outcome final trace] in Hrun.
  destruct D as (D0 & D1 & D2).
  split; [|split; [|split]].
  - intros Hn. now rewrite (network_switch_local (conj D0 (conj D1 D2)) s1 Hn) in Hrun.
  - intros Hn.
    assert (Hl : GetNetworkNumber s1 <> constants_NETWORK_LOCAL)
      by (destruct Hn; congruence).
    rewrite (network_switch_not_local s1 Hl) in Hrun. cbn [outcome] in Hrun.
    rewrite Hrun.
    destruct Hn as [-> | ->]; rewrite Z.eqb_refl, ?orb_true_r; reflexivity.
  - intros H1 H2 H3.
    rewrite (network_switch_not_local s1 H3) in Hrun. cbn [outcome] in Hrun.
    rewrite Hrun.
    rewrite (proj2 (Z.eqb_neq _ _) H1), (proj2 (Z.eqb_neq _ _) H2).
    reflexivity.
  - intros o Ho. rewrite Hrun in Ho.
    destruct (outcome (network_switch s1)) as [u|v] eqn:E; [|discriminate].
    exact (network_switch_done s1 u E).
Qed.

(** What [LeaderExecute] does, by the result of signing: the message built
    from the previous directory block's key goes to both queues whether or
    not [Sign] stored a signature. *)
Lemma LeaderExecute_run (m : EOM) (s : State) (blk : DirectoryBlock) :
  GetPreviousDirectoryBlock s = Some blk ->
  LeaderExecute m s =
    let DBM := set_DirectoryBlockKeyMR (GetKeyMR blk) NewDirectoryBlockSignature in
    match SignSignable_DBS DBM s with
    | Ok signature =>
        let DBM := set_DBS_Signature (Some signature) DBM in
        Build_run (Done None) s
          [Send_NetworkOutMsgQueue (IMsg_DBS DBM); Send_InMsgQueue (IMsg_DBS DBM)]
    | Err _ =>
        Build_run (Done None) s
          [Send_NetworkOutMsgQueue (IMsg_DBS DBM); Send_InMsgQueue (IMsg_DBS DBM)]
    | Panic v => Build_run (Aborted v) s []
    end.
Proof.
  intros Hprev. unfold LeaderExecute, bind, gets, ret, send, call_DBS_Sign, DBS_Sign.
  cbn. rewrite Hprev. cbn.
  destruct (SignSignable_DBS _ s); reflexivity.
Qed.

(** C8. Degenerate role dispatch: [Validate] is 1, so neither -1 nor 0;
    [Leader] is false; [Follower] is true. *)
Theorem degenerate_role_dispatch (m : EOM) (state : State) :
  Validate m state = 1%Z /\
  Validate m state <> (-1)%Z /\
  Validate m state <> 0%Z /\
  Leader m state = false /\
  Follower m state = true.
Proof.
  unfold Validate, Leader, Follower. repeat split; discriminate.
Qed.

(** C9, as the code has it.  A timestamp comes from the wire only: a decode
    that succeeds has read one and stored it, and fails without one.
    [NewEOM] sets the minute and nothing else, leaving the timestamp at its
    zero value whatever the node and its clock; [GetHash], [Sign] and
    [Process] leave the timestamp as it is. *)
Theorem timestamp_set_by_decode_only :
  (forall (state : State) (minute : Z),
      NewEOM state minute = set_Minute (byte_of_Z minute) new_EOM /\
      Timestamp (NewEOM state minute) = zero_value) /\
  (forall (r : EOM) (data : list byte) (f : decode_frame),
      UnmarshalBinaryData r data = Returns f -> err f = None ->
      exists tag body rest,
        data = tag :: body /\
        unmarshal_binary_data (Timestamp r) body = (Timestamp (receiver f), Ok rest)) /\
  (forall m : EOM, Timestamp (fst (GetHash m)) = Timestamp m) /\
  (forall (m : EOM) (key : State), Timestamp (fst (Sign m key)) = Timestamp m) /\
  (forall (m : EOM) (state : State), Timestamp (Process m state) = Timestamp m).
Proof.
  split; [|split; [|split; [|split]]].
  - intros state minute. now split.
  - intros r data f Hd He.
    unfold UnmarshalBinaryData, UnmarshalBinaryData_body in Hd.
    destruct data as [|tag body]; [cbn in Hd; injection Hd as <-; discriminate|].
    exists tag, body.
    cbn [slice_from List.length Nat.leb skipn] in Hd.
    destruct (unmarshal_binary_data (Timestamp r) body) as [ts [rest|e|p]] eqn:Ets;
      cbn [deferred_recover] in Hd.
    + exists rest. split; [reflexivity|]. f_equal.
      split_decode Hd; injection Hd as <-; cbn in He; try discriminate;
        reflexivity.
    + injection Hd as <-. discriminate.
    + injection Hd as <-. discriminate.
  - intros m. unfold GetHash.
    destruct (hash m); [reflexivity|].
    destruct (MarshalForSignature m); reflexivity.
  - intros m key. unfold Sign. destruct (SignSignable_EOM m key); reflexivity.
  - reflexivity.
Qed.

End TransitionProperties.

(** ** The reference node at work *)

Section ReferenceNode.
Import Reference.

Lemma fixed_width_split (t rest : list byte) (n : nat) :
  List.length t = n ->
  firstn n (t ++ rest) = t /\ skipn n (t ++ rest) = rest /\
  (n <=? List.length (t ++ rest))%nat = true.
Proof.
  intros <-. repeat split.
  - rewrite firstn_app, Nat.sub_diag, firstn_all. cbn. apply app_nil_r.
  - rewrite skipn_app, Nat.sub_diag, skipn_all. reflexivity.
  - apply Nat.leb_le. rewrite length_app. lia.
Qed.

Lemma fixed_marshal_Ok (n : nat) (t bs : list byte) :
  fixed_marshal n t = Ok bs -> bs = t /\ List.length t = n.
Proof.
  unfold fixed_marshal.
  destruct (Nat.eqb_spec (List.length t) n); [|discriminate].
  now intros [= <-].
Qed.

Lemma reference_laws : PrimitivesLaws primitives.
Proof.
  constructor.
  - intros t old bs rest Hm. apply fixed_marshal_Ok in Hm as [-> Hl].
    destruct (fixed_width_split t rest _ Hl) as (Hf & Hs & Hle).
    cbn. unfold fixed_unmarshal, slice_to, slice_from.
    now rewrite Hle, Hf, Hs.
  - intros t old bs rest Hm. apply fixed_marshal_Ok in Hm as [-> Hl].
    destruct (fixed_width_split t rest _ Hl) as (Hf & Hs & Hle).
    cbn. unfold checked_unmarshal. now rewrite Hle, Hf, Hs.
  - intros t old bs rest Hm. apply fixed_marshal_Ok in Hm as [-> Hl].
    destruct (fixed_width_split t rest _ Hl) as (Hf & Hs & Hle).
    cbn. unfold checked_unmarshal. now rewrite Hle, Hf, Hs.
  - intros t bs Hm. apply fixed_marshal_Ok in Hm as [-> Hl].
    destruct t; [discriminate | discriminate].
Qed.

Lemma reference_switch_cases : switch_cases_distinct.
Proof. repeat split; discriminate. Qed.

(** The signed message of the reference node round-trips. *)
Lemma EOM_roundtrip_witness :
  MarshalBinary eom_signed = Ok wire_signed /\
  exists m' h,
    UnmarshalBinaryData new_EOM wire_signed
      = Returns (Build_frame m' wire_signed None) /\
    Timestamp m' = Timestamp eom_signed /\
    Minute m' = Minute eom_signed /\
    DirectoryBlockHeight m' = DirectoryBlockHeight eom_signed /\
    IdentityChainID m' = IdentityChainID eom_signed /\
    Signature m' = Signature eom_signed /\
    snd (GetHash m') = Ok h /\ snd (GetHash eom_signed) = Ok h.
Proof.
  split; [reflexivity|].
  apply (EOM_roundtrip reference_laws eom_signed new_EOM wire_signed).
  - vm_compute. discriminate.
  - reflexivity.
  - exact I.
  - reflexivity.
  - reflexivity.
  - reflexivity.
Defined.

(** The follower execution of a minute-close message on the reference
    node is the transition of this file. *)
Lemma node_replay_skip (m : EOM) (pre l : list (IMsg bool)) (s : node) :
  Forall (fun msg => passes msg = true) pre ->
  node_replay m (pre ++ l) s = node_replay m l s.
Proof.
  induction 1 as [|msg pre Hmsg _ IH]; [reflexivity|].
  cbn [app node_replay]. destruct msg as [m'|d|[|]]; trivial; discriminate.
Qed.

Lemma reference_call_passes (msg : IMsg bool) (s : node) :
  passes msg = true ->
  call_FollowerExecute (H0:=state) msg s =
    Build_run (Done None) s [Call_FollowerExecute msg].
Proof. destruct msg as [m'|d|[|]]; try discriminate; reflexivity. Qed.

Lemma reference_replay (m : EOM) (others : list (list (IMsg bool)))
    (suf pre : list (IMsg bool)) (s : node) :
  slots s = (pre ++ suf) :: others ->
  Forall (fun msg => passes msg = true) pre ->
  (replay (H0:=state) suf s = Build_run (Done tt) s (map Call_FollowerExecute suf) /\
   node_replay m suf s = node_finish m s) \/
  (exists v tr,
      replay (H0:=state) suf s = Build_run (Aborted v) s tr /\
      node_replay m suf s = (s, Panic v)).
Proof.
  revert pre. induction suf as [|msg rest IH]; intros pre Hs Hpre.
  - left. now split.
  - destruct (passes msg) eqn:Hp.
    + assert (Hs' : slots s = ((pre ++ [msg]) ++ rest) :: others)
        by now rewrite <- app_assoc.
      assert (Hpre' : Forall (fun x => passes x = true) (pre ++ [msg]))
        by (apply Forall_app; split; [assumption | now constructor]).
      assert (Hn : node_replay m (msg :: rest) s = node_replay m rest s)
        by (destruct msg as [m'|d|[|]]; try discriminate; reflexivity).
      cbn [replay].
      rewrite (bind_Done _ _ _ _ _ _ (reference_call_passes msg s Hp)), Hn.
      destruct (IH (pre ++ [msg]) Hs' Hpre') as [(Hr & Hf) | (v & tr & Hr & Hf)];
        rewrite Hr; cbn [outcome final trace].
      * left. now split.
      * right. exists v. eexists. now split.
    + destruct msg as [m'|d|[|]]; try discriminate.
      * right. exists stack_overflow. eexists. split; [|reflexivity].
        cbn [replay]. unfold bind, call_FollowerExecute.
        change (@IMsg_FollowerExecute _ state (IMsg_EOM m') s)
          with (node_follower (IMsg_EOM m') s).
        cbn [node_follower]. rewrite Hs.
        rewrite (node_replay_skip m' pre (IMsg_EOM m' :: rest) s Hpre).
        reflexivity.
      * right. exists "Failed to build state in EOM: rejected"%string. eexists.
        split; reflexivity.
Qed.

Lemma reference_dispatch_faithful :
  EOM_dispatch_is_FollowerExecute (H0:=state).
Proof.
  intros m s.
  change (@IMsg_FollowerExecute _ state (IMsg_EOM m) s)
    with (node_follower (IMsg_EOM m) s).
  pose proof (FollowerExecute_run (H0:=state) m s) as Hrun. cbv zeta in Hrun.
  cbn [node_follower].
  destruct (slots s) as [|slot others] eqn:Hs.
  - unfold FollowerExecute, process_list_slot0.
    unfold bind at 1 2, gets. cbn [outcome final trace].
    change (@GetProcessList _ state s) with (slots s). now rewrite Hs.
  - rewrite (replay_and_notify_run (H0:=state) m s slot others Hs) in Hrun.
    cbv zeta in Hrun.
    destruct (reference_replay m others slot [] s Hs (Forall_nil _))
      as [(Hr & Hn) | (v & tr & Hr & Hn)].
    + rewrite Hr in Hrun. cbn [outcome final trace] in Hrun.
      rewrite Hn. unfold node_finish. cbv zeta.
      set (s1 := node_end_of_period (int_of_byte (Minute m)) s) in *.
      change (@EndOfPeriod _ state (int_of_byte (Minute m)) s) with s1 in Hrun.
      destruct (Z.eqb_spec (network s1) 2) as [Hl|Hl].
      * rewrite (network_switch_local reference_switch_cases s1 Hl) in Hrun.
        cbn [outcome] in Hrun. rewrite Hrun, last_minute_run.
        destruct (Byte.to_N (Minute m) =? 9)%N; reflexivity.
      * rewrite (network_switch_not_local (H0:=state) s1 Hl) in Hrun.
        cbn [outcome] in Hrun. rewrite Hrun. reflexivity.
    + rewrite Hr in Hrun. cbn [outcome final trace] in Hrun.
      rewrite Hrun, Hn. reflexivity.
Qed.

(** Slot 0 of the quiet reference node is replayed in order; with a
    message that fails in second place the transition aborts after it; and
    a minute-close message in the slot, whose replay never returns, ends
    the transition there. *)
Lemma replay_in_list_order_witness :
  (exists tl,
     trace (FollowerExecute eom_unsigned quiet_node) =
       map Call_FollowerExecute [IMsg_other true; IMsg_other true]
         ++ Call_EndOfPeriod 9 :: tl /\
     forallb is_end_of_block_step tl = true) /\
  FollowerExecute eom_unsigned
    (with_slots [[IMsg_other true; IMsg_other false; IMsg_other true]] local_node) =
    Build_run (Aborted "Failed to build state in EOM: rejected"%string)
      (with_slots [[IMsg_other true; IMsg_other false; IMsg_other true]] local_node)
      [Call_FollowerExecute (IMsg_other true);
       Call_FollowerExecute (IMsg_other false)] /\
  FollowerExecute eom_unsigned local_node =
    Build_run (Aborted stack_overflow) local_node
      [Call_FollowerExecute (IMsg_other true);
       Call_FollowerExecute (IMsg_EOM eom_minute3)].
Proof.
  split; [|split].
  - refine (proj1 (replay_in_list_order eom_unsigned quiet_node
                     [IMsg_other true; IMsg_other true] [] eq_refl) _ _).
    eapply (@replayed_cons primitives state); [reflexivity|].
    eapply (@replayed_cons primitives state); [reflexivity|].
    apply (@replayed_nil primitives state).
  - refine (proj1 (proj2 (replay_in_list_order eom_unsigned
                            (with_slots [[IMsg_other true; IMsg_other false;
                                          IMsg_other true]] local_node)
                            [IMsg_other true; IMsg_other false; IMsg_other true]
                            [] eq_refl))
              [IMsg_other true] [IMsg_other true] (IMsg_other false)
              _ _ "rejected"%string eq_refl _ eq_refl).
    eapply (@replayed_cons primitives state); [reflexivity|].
    apply (@replayed_nil primitives state).
  - refine (proj1 (proj2 (proj2 (replay_in_list_order eom_unsigned local_node
                            [IMsg_other true; IMsg_EOM eom_minute3] [] eq_refl)))
              [IMsg_other true] [] (IMsg_EOM eom_minute3)
              local_node local_node stack_overflow eq_refl _ eq_refl).
    eapply (@replayed_cons primitives state); [reflexivity|].
    apply (@replayed_nil primitives state).
Defined.

(** Minute 9 on the quiet reference server node: one end of block, then
    the message on the leader-input queue; off server mode, no send;
    minute 3: neither. *)
Lemma last_minute_trigger_witness :
  filter is_end_of_block_step (trace (FollowerExecute eom_unsigned quiet_node)) =
    [Call_ProcessEndOfBlock; Send_LeaderInMsgQueue (IMsg_EOM eom_unsigned)] /\
  filter is_end_of_block_step
    (trace (FollowerExecute eom_unsigned (with_server 0 quiet_node))) =
    [Call_ProcessEndOfBlock] /\
  filter is_end_of_block_step (trace (FollowerExecute eom_minute3 quiet_node)) = [].
Proof.
  split; [|split].
  - exact (proj2 (proj1 (proj2 (last_minute_trigger (H0:=state) eom_unsigned quiet_node))
                    eq_refl None eq_refl)).
  - exact (proj2 (proj1 (proj2 (last_minute_trigger (H0:=state) eom_unsigned
                                  (with_server 0 quiet_node)))
                    eq_refl None eq_refl)).
  - apply (proj1 (last_minute_trigger (H0:=state) eom_minute3 quiet_node)).
    vm_compute. discriminate.
Defined.

(** The quiet reference node under the local, the main and an unknown
    profile. *)
Lemma network_profile_handling_witness :
  outcome (FollowerExecute eom_unsigned quiet_node) = Done None /\
  outcome (FollowerExecute eom_unsigned (with_network 0 quiet_node)) =
    Aborted "Not implemented yet"%string /\
  outcome (FollowerExecute eom_unsigned (with_network 7 quiet_node)) =
    Aborted "Not implemented yet: Network Number 7"%string.
Proof.
  split; [|split].
  - rewrite (proj1 (network_profile_handling reference_switch_cases
                      eom_unsigned quiet_node
                      (final (replay_and_notify (H0:=state) eom_unsigned quiet_node))
                      (trace (replay_and_notify (H0:=state) eom_unsigned quiet_node))
                      eq_refl) eq_refl).
    reflexivity.
  - rewrite (proj1 (proj2 (network_profile_handling reference_switch_cases
                      eom_unsigned (with_network 0 quiet_node)
                      (final (replay_and_notify (H0:=state) eom_unsigned (with_network 0 quiet_node)))
                      (trace (replay_and_notify (H0:=state) eom_unsigned (with_network 0 quiet_node)))
                      eq_refl)) (or_introl eq_refl)).
    reflexivity.
  - rewrite (proj1 (proj2 (proj2 (network_profile_handling reference_switch_cases
                      eom_unsigned (with_network 7 quiet_node)
                      (final (replay_and_notify (H0:=state) eom_unsigned (with_network 7 quiet_node)))
                      (trace (replay_and_notify (H0:=state) eom_unsigned (with_network 7 quiet_node)))
                      eq_refl)))).
    + reflexivity.
    + vm_compute. discriminate.
    + vm_compute. discriminate.
    + vm_compute. discriminate.
Defined.

(** C5 at a node that cannot sign: [LeaderExecute] returns a nil error and
    the directory-block-signature message goes to the outbound and to the
    inbound queue without a signature. *)
Theorem LeaderExecute_publishes_unsigned :
  LeaderExecute eom_unsigned (without_signing_key local_node) =
    Build_run (Done None) (without_signing_key local_node)
      [Send_NetworkOutMsgQueue
         (IMsg_DBS {| DirectoryBlockKeyMR := Some chain; DBS_Signature := None |});
       Send_InMsgQueue
         (IMsg_DBS {| DirectoryBlockKeyMR := Some chain; DBS_Signature := None |})].
Proof. reflexivity. Qed.

(** With its signing key the same node publishes the signed message once
    on each queue. *)
Lemma LeaderExecute_publishes_signed :
  LeaderExecute eom_unsigned local_node =
    Build_run (Done None) local_node
      [Send_NetworkOutMsgQueue
         (IMsg_DBS {| DirectoryBlockKeyMR := Some chain;
                      DBS_Signature := Some (repeat x11 32 ++ repeat x01 64) |});
       Send_InMsgQueue
         (IMsg_DBS {| DirectoryBlockKeyMR := Some chain;
                      DBS_Signature := Some (repeat x11 32 ++ repeat x01 64) |})].
Proof. reflexivity. Qed.

(** A minute byte of 10 is refused; the reference message decodes with a
    minute below 10. *)
Lemma minute_range_rejection_witness :
  UnmarshalBinaryData new_EOM wire_minute10 =
    Returns (Build_frame (set_Minute x0a (set_Timestamp stamp new_EOM)) []
               (Some "Minute number is out of range"%string)) /\
  (Byte.to_N (Minute (receiver (frame_of (UnmarshalBinaryData new_EOM wire_unsigned))))
     < 10)%N.
Proof.
  split.
  - apply (proj1 (minute_range_rejection (H:=primitives)) new_EOM x00 x0a
             (stamp ++ x0a :: skipn 8 wire_unsigned) (skipn 8 wire_unsigned) stamp).
    + reflexivity.
    + vm_compute. discriminate.
  - apply (proj2 (minute_range_rejection (H:=primitives)) new_EOM wire_unsigned); reflexivity.
Defined.

(** Every prefix of the signed wire form is decoded to a result; the
    prefix that ends where the signature starts decodes without error, as
    the unsigned message. *)
Lemma decode_total_witness :
  (forall n : nat,
      exists f, UnmarshalBinaryData new_EOM (firstn n wire_signed) = Returns f) /\
  err (frame_of (UnmarshalBinaryData new_EOM (firstn 5 wire_signed))) =
    Some "Error unmarshalling: runtime error: slice bounds out of range"%string /\
  UnmarshalBinaryData new_EOM (firstn 44 wire_signed) =
    UnmarshalBinaryData new_EOM wire_unsigned.
Proof.
  split; [|split].
  - intros n.
    exact (proj1 (proj2 (decode_total (H:=primitives))) new_EOM eom_signed wire_signed n eq_refl).
  - reflexivity.
  - reflexivity.
Defined.

(** Two bytes after the signed message: the decoder returns all of its
    input, not those two bytes. *)
Lemma decode_returns_whole_input_witness :
  newData (frame_of (UnmarshalBinaryData new_EOM (wire_signed ++ [x01; x02]))) =
    wire_signed ++ [x01; x02] /\
  exists tag rest,
    newData (frame_of (UnmarshalBinaryData new_EOM (wire_signed ++ [x01; x02]))) =
      tag :: rest.
Proof.
  apply (decode_returns_whole_input (H:=primitives) new_EOM (wire_signed ++ [x01; x02])
           (frame_of (UnmarshalBinaryData new_EOM (wire_signed ++ [x01; x02]))));
    reflexivity.
Defined.

(** The decoder writes the fields it reads and no other: a receiver that
    already holds a signature keeps it when the wire form has none. *)
Lemma decode_keeps_receiver_signature :
  Signature (receiver (frame_of (UnmarshalBinaryData eom_signed wire_unsigned))) =
    Some seal.
Proof. reflexivity. Qed.

(** C9 as the claim has it fails: the message [NewEOM] makes on the
    reference node does not carry the node's clock. *)
Lemma NewEOM_timestamp_is_not_creation_time :
  Timestamp (NewEOM local_node 3) <> State_GetTimestamp local_node.
Proof. vm_compute. discriminate. Qed.

(** [NewEOM] on the reference node: the zero timestamp and the minute. *)
Lemma timestamp_set_by_decode_only_witness :
  Timestamp (NewEOM local_node 3) = repeat x00 6 /\
  Minute (NewEOM local_node 3) = x03 /\
  Timestamp (receiver (frame_of (UnmarshalBinaryData new_EOM wire_unsigned))) = stamp.
Proof.
  split; [|split].
  - exact (proj2 (proj1 (timestamp_set_by_decode_only (H0:=state)) local_node 3%Z)).
  - reflexivity.
  - reflexivity.
Defined.

End ReferenceNode.

(** * Further properties of the codec *)

Lemma byte_of_N_to_N (b : byte) : byte_of_N (Byte.to_N b) = b.
Proof.
  unfold byte_of_N.
  rewrite N.mod_small by (pose proof (Byte.to_N_bounded b); lia).
  now rewrite Byte.of_to_N.
Qed.

Lemma to_N_byte_of_Z (z : Z) : Byte.to_N (byte_of_Z z) = Z.to_N (z mod 256).
Proof.
  unfold byte_of_Z. rewrite to_N_byte_of_N.
  apply N.mod_small.
  pose proof (Z.mod_pos_bound z 256 eq_refl). lia.
Qed.

Lemma byte_of_Z_int_of_byte (b : byte) : byte_of_Z (int_of_byte b) = b.
Proof.
  unfold byte_of_Z, int_of_byte.
  pose proof (Byte.to_N_bounded b).
  rewrite Z.mod_small by lia.
  now rewrite N2Z.id, byte_of_N_to_N.
Qed.

Lemma skipn_past {A : Type} (d l : list A) (k : nat) :
  skipn (List.length d + k) (d ++ l) = skipn k l.
Proof. induction d as [|a d IH]; [reflexivity | exact IH]. Qed.

Section CodecExtras.
Context `{Primitives}.

(** X1. The wire form is the signing payload followed by the bytes of the
    signature, if there is one: the wire form of a signed message starts
    with the wire form the same message has without its signature. *)
Theorem wire_extends_payload (m : EOM) (bs : list byte) :
  MarshalBinary m = Ok bs ->
  exists payload sigb,
    MarshalForSignature m = Ok payload /\
    MarshalBinary (set_Signature None m) = Ok payload /\
    bs = payload ++ sigb /\
    match Signature m with
    | None => sigb = []
    | Some sig => marshal_binary sig = Ok sigb
    end.
Proof.
  unfold MarshalBinary, GetSignature.
  rewrite (MarshalForSignature_ext m (set_Signature None m)) by reflexivity.
  destruct (MarshalForSignature m) as [payload| |]; try discriminate.
  cbn [Signature set_Signature].
  destruct (Signature m) as [sig|].
  - destruct (marshal_binary sig) as [sigb| |]; try discriminate.
    intros [= <-]. now exists payload, sigb.
  - intros [= <-]. exists payload, []. now rewrite app_nil_r.
Qed.

(** X2. The layout of the signing payload: the type tag at offset 0, the
    timestamp, the minute in the byte after it, the height in the next four
    bytes, big endian, and the identity in the rest. *)
Theorem payload_layout (m : EOM) (data : list byte) :
  MarshalForSignature m = Ok data ->
  exists d id h,
    marshal_binary (Timestamp m) = Ok d /\
    IdentityChainID m = Some id /\ marshal_binary id = Ok h /\
    List.length data = (6 + List.length d + List.length h)%nat /\
    nth_error data 0 = Some (byte_of_Z constants_EOM_MSG) /\
    firstn (List.length d) (skipn 1 data) = d /\
    nth_error data (1 + List.length d) = Some (Minute m) /\
    (uint32_range (DirectoryBlockHeight m) ->
     BigEndian_Uint32 (skipn (2 + List.length d) data)
       = Some (DirectoryBlockHeight m)) /\
    skipn (6 + List.length d) data = h.
Proof.
  intros Hm.
  destruct (MarshalForSignature_Ok m _ Hm) as (d & id & h & Hd & Hid & Hh & ->).
  exists d, id, h. repeat (split; [assumption|]).
  split; [|split; [|split; [|split; [|split]]]].
  - cbn [List.length]. rewrite length_app. cbn [List.length].
    rewrite length_app. cbn. lia.
  - reflexivity.
  - cbn [skipn]. rewrite firstn_app, Nat.sub_diag, firstn_all. cbn.
    apply app_nil_r.
  - cbn [Nat.add nth_error]. rewrite nth_error_app2 by lia.
    now rewrite Nat.sub_diag.
  - intros Hr.
    replace (2 + List.length d)%nat with (S (List.length d + 1)) by lia.
    rewrite skipn_cons, skipn_past. cbn [skipn].
    pose proof (Uint32_PutUint32 _ Hr) as Hu.
    unfold BigEndian_PutUint32 in *. cbn [app]. exact Hu.
  - replace (6 + List.length d)%nat with (S (List.length d + 5)) by lia.
    rewrite skipn_cons, skipn_past. reflexivity.
Qed.

Lemma MarshalBinary_Ok (m : EOM) (bs : list byte) :
  MarshalBinary m = Ok bs ->
  exists payload sigb,
    MarshalForSignature m = Ok payload /\ bs = payload ++ sigb /\
    match Signature m with
    | None => sigb = []
    | Some sig => marshal_binary sig = Ok sigb
    end.
Proof.
  unfold MarshalBinary, GetSignature.
  destruct (MarshalForSignature m) as [payload| |]; try discriminate.
  destruct (Signature m) as [sig|].
  - destruct (marshal_binary sig) as [sigb| |]; try discriminate.
    intros [= <-]. now exists payload, sigb.
  - intros [= <-]. exists payload, []. now rewrite app_nil_r.
Qed.

(** Case analysis on every [match] of a goal about the decoder. *)
Ltac split_decode_goal :=
  repeat match goal with
         | |- context [match ?x with _ => _ end] => destruct x
         end.

(** X3. The encoder does not check the minute: a message whose minute is 10
    or more is encoded, and the decoder refuses those very bytes. *)
Theorem encoded_minute_out_of_range_is_rejected (L : PrimitivesLaws _)
    (m r : EOM) (bs : list byte) :
  (10 <= Byte.to_N (Minute m))%N ->
  MarshalBinary m = Ok bs ->
  UnmarshalBinaryData r bs =
    Returns (Build_frame (set_Minute (Minute m) (set_Timestamp (Timestamp m) r))
               [] (Some "Minute number is out of range"%string)).
Proof.
  intros Hmin Hm.
  destruct (MarshalBinary_Ok m bs Hm) as (payload & sigb & Hp & -> & _).
  destruct (MarshalForSignature_Ok m _ Hp) as (d & id & h & Hd & _ & _ & ->).
  unfold UnmarshalBinaryData, UnmarshalBinaryData_body.
  cbn [app slice_from List.length Nat.leb skipn].
  rewrite <- app_assoc.
  rewrite (Timestamp_roundtrip L _ (Timestamp r) _ _ Hd).
  cbn [app Minute set_Minute].
  replace (10 <=? Byte.to_N (Minute m))%N with true
    by (symmetry; now apply N.leb_le).
  now rewrite orb_true_r.
Qed.

(** X4. A message made by [NewEOM] has no identity: its signing payload cannot
    be built (a nil dereference once the timestamp is written), so it can
    neither be encoded nor hashed. *)
Theorem NewEOM_is_not_marshallable (S : Type) (state : S) (minute : Z) :
  (forall bs, MarshalForSignature (NewEOM state minute) <> Ok bs) /\
  (forall bs, MarshalBinary (NewEOM state minute) <> Ok bs) /\
  (forall h, snd (GetHash (NewEOM state minute)) <> Ok h) /\
  (forall d, marshal_binary (zero_value (T:=interfaces_Timestamp)) = Ok d ->
             MarshalForSignature (NewEOM state minute)
               = Panic nil_pointer_dereference).
Proof.
  assert (Hp : forall bs, MarshalForSignature (NewEOM state minute) <> Ok bs).
  { intros bs. unfold MarshalForSignature, NewEOM. cbn.
    destruct (marshal_binary zero_value); discriminate. }
  split; [exact Hp|]. split; [|split].
  - intros bs. unfold MarshalBinary.
    destruct (MarshalForSignature (NewEOM state minute)) as [p| |] eqn:E;
      try discriminate.
    exfalso. first [exact (Hp p eq_refl) | exact (Hp p E)].
  - intros h. unfold GetHash.
    change (hash (NewEOM state minute)) with (@None primitives_Hash).
    destruct (MarshalForSignature (NewEOM state minute)) as [p| |] eqn:E;
      cbn [snd]; try discriminate.
    exfalso. first [exact (Hp p eq_refl) | exact (Hp p E)].
  - intros d Hd. unfold MarshalForSignature, NewEOM. cbn. now rewrite Hd.
Qed.

(** X5. [NewEOM] keeps the low eight bits of its [minute] argument, whatever
    its range, and [Int] reads them back; so [NewEOM(state, m.Int())] has
    the minute of [m]. *)
Theorem NewEOM_Int (S : Type) (state : S) (minute : Z) (m : EOM) :
  Int (NewEOM state minute) = (minute mod 256)%Z /\
  (0 <= Int m < 256)%Z /\
  Minute (NewEOM state (Int m)) = Minute m /\
  Bytes (NewEOM state (Int m)) = Bytes m.
Proof.
  unfold Int, Bytes, NewEOM. cbn [Minute set_Minute].
  rewrite byte_of_Z_int_of_byte.
  split; [|split; [|split]]; trivial.
  - unfold int_of_byte. rewrite to_N_byte_of_Z.
    pose proof (Z.mod_pos_bound minute 256 eq_refl). lia.
  - unfold int_of_byte. pose proof (Byte.to_N_bounded (Minute m)). lia.
Qed.

(** X6. The decoder skips the first byte without looking at it: two inputs
    that differ in the type tag only give the same message and the same
    error. *)
Theorem decode_ignores_tag (r : EOM) (t1 t2 : byte) (body : list byte) :
  receiver (frame_of (UnmarshalBinaryData r (t1 :: body))) =
    receiver (frame_of (UnmarshalBinaryData r (t2 :: body))) /\
  err (frame_of (UnmarshalBinaryData r (t1 :: body))) =
    err (frame_of (UnmarshalBinaryData r (t2 :: body))).
Proof.
  unfold UnmarshalBinaryData, UnmarshalBinaryData_body.
  cbn [slice_from List.length Nat.leb skipn].
  split_decode_goal; cbn; split; reflexivity.
Qed.

(** X7. The decoder never touches the cached hash: a receiver that has
    computed its hash keeps answering [GetHash] with it after any decode,
    whatever was decoded. *)
Theorem decode_keeps_cached_hash (r : EOM) (data : list byte) :
  hash (receiver (frame_of (UnmarshalBinaryData r data))) = hash r /\
  (forall h, hash r = Some h ->
             snd (GetHash (receiver (frame_of (UnmarshalBinaryData r data))))
               = Ok h).
Proof.
  assert (Hh : hash (receiver (frame_of (UnmarshalBinaryData r data))) = hash r).
  { unfold UnmarshalBinaryData, UnmarshalBinaryData_body.
    split_decode_goal; reflexivity. }
  split; [exact Hh|].
  intros h Hr. unfold GetHash. now rewrite Hh, Hr.
Qed.

(** X8. The decoder assigns the signature only when bytes remain after the
    identity: decoding an unsigned wire form leaves the receiver's own
    signature where it was. *)
Theorem decode_unsigned_keeps_signature (L : PrimitivesLaws _) (m r : EOM)
    (bs : list byte) :
  (Byte.to_N (Minute m) <= 9)%N ->
  uint32_range (DirectoryBlockHeight m) ->
  Signature m = None ->
  MarshalBinary m = Ok bs ->
  err (frame_of (UnmarshalBinaryData r bs)) = None /\
  Signature (receiver (frame_of (UnmarshalBinaryData r bs))) = Signature r.
Proof.
  intros Hmin Hr Hs Hm.
  destruct (MarshalBinary_Ok m bs Hm) as (payload & sigb & Hp & -> & Hsig).
  rewrite Hs in Hsig. subst sigb.
  unfold UnmarshalBinaryData.
  rewrite (decode_payload L m r payload [] Hmin Hr Hp).
  now split.
Qed.

(** X9. Bytes that follow a signed wire form are ignored: the decode succeeds
    and gives the same message as without them. *)
Theorem decode_ignores_trailing_bytes (L : PrimitivesLaws _) (m r : EOM)
    (bs extra : list byte) :
  (Byte.to_N (Minute m) <= 9)%N ->
  uint32_range (DirectoryBlockHeight m) ->
  Signature m <> None ->
  MarshalBinary m = Ok bs ->
  UnmarshalBinaryData r (bs ++ extra) =
    Returns (Build_frame (receiver (frame_of (UnmarshalBinaryData r bs)))
               (bs ++ extra) None).
Proof.
  intros Hmin Hr Hs Hm.
  destruct (MarshalBinary_Ok m bs Hm) as (payload & sigb & Hp & -> & Hsig).
  destruct (Signature m) as [sig|]; [|congruence].
  assert (Hne : forall rest, (0 <? List.length (sigb ++ rest))%nat = true).
  { intros rest. apply Nat.ltb_lt. pose proof (Signature_nonempty L _ _ Hsig).
    destruct sigb; [congruence | simpl; lia]. }
  pose proof (Hne []) as Hne0. rewrite app_nil_r in Hne0.
  unfold UnmarshalBinaryData.
  rewrite (decode_payload L m r payload sigb Hmin Hr Hp).
  rewrite <- app_assoc.
  rewrite (decode_payload L m r payload (sigb ++ extra) Hmin Hr Hp).
  cbv zeta. rewrite Hne, Hne0.
  rewrite (Signature_roundtrip L sig zero_value _ extra Hsig).
  pose proof (Signature_roundtrip L sig zero_value _ [] Hsig) as Hs0.
  rewrite app_nil_r in Hs0. rewrite Hs0.
  reflexivity.
Qed.

(** X10. [GetHash] computes the hash once: a second call gives the same hash
    and leaves the message as it is, and nothing recomputes it when a
    signed field is assigned afterwards. *)
Theorem GetHash_is_cached (m : EOM) (h : primitives_Hash) :
  snd (GetHash m) = Ok h ->
  GetHash (fst (GetHash m)) = (fst (GetHash m), Ok h) /\
  (forall t, snd (GetHash (set_Timestamp t (fst (GetHash m)))) = Ok h) /\
  (forall b, snd (GetHash (set_Minute b (fst (GetHash m)))) = Ok h) /\
  (forall n, snd (GetHash (set_DirectoryBlockHeight n (fst (GetHash m)))) = Ok h) /\
  (forall i, snd (GetHash (set_IdentityChainID i (fst (GetHash m)))) = Ok h).
Proof.
  intros Hg.
  assert (Hc : hash (fst (GetHash m)) = Some h).
  { unfold GetHash in *. destruct (hash m) as [h0|] eqn:Hh; cbn in *.
    - congruence.
    - destruct (MarshalForSignature m); cbn in *; congruence. }
  assert (Hk : forall m' : EOM, hash m' = Some h -> GetHash m' = (m', Ok h)).
  { intros m' Hm'. unfold GetHash. now rewrite Hm'. }
  split; [now apply Hk|].
  repeat split; intros x; now rewrite Hk.
Qed.

(** X11. Every error the decoder returns comes with the nil slice, except a
    recovered panic, which leaves the slice the decoder had reached: an
    error is either one the body returned, with the nil slice, or the
    rendering of a panic of the body, and then the receiver and the slice
    are those the body had when it panicked. *)
Theorem decode_error_slice (r : EOM) (data : list byte) (f : decode_frame)
    (e : error) :
  UnmarshalBinaryData r data = Returns f -> err f = Some e ->
  (UnmarshalBinaryData_body r data = Returns f /\ newData f = []) \/
  (exists fb p,
      UnmarshalBinaryData_body r data = Panics fb p /\
      e = ("Error unmarshalling: " ++ p)%string /\
      receiver f = receiver fb /\
      newData f = newData fb).
Proof.
  unfold UnmarshalBinaryData. intros Hd He.
  destruct (UnmarshalBinaryData_body r data) as [fb|fb p] eqn:Hb;
    cbn [deferred_recover] in Hd; injection Hd as <-.
  - left. split; [reflexivity|].
    unfold UnmarshalBinaryData_body in Hb.
    split_decode Hb; first [discriminate | injection Hb as <-];
      cbn in He |- *; first [discriminate | reflexivity].
  - right. exists fb, p. cbn in He |- *. injection He as <-. now repeat split.
Qed.

(** X12. [String] shows the minute counted from one: for a decoded message, a
    number from 1 to 10. *)
Theorem String_of_decoded (r : EOM) (data : list byte) (f : decode_frame) :
  UnmarshalBinaryData r data = Returns f -> err f = None ->
  String_ (receiver f) =
    ("EOM(" ++ format_int (Int (receiver f) + 1)
       ++ "), DirectoryBlockHeight("
       ++ format_int (Z.of_N (DirectoryBlockHeight (receiver f))) ++ ")")%string /\
  (1 <= Int (receiver f) + 1 <= 10)%Z.
Proof.
  intros Hd He. destruct (decode_success r data f Hd He) as (_ & Hlt & _).
  unfold String_, Int, int_of_byte. rewrite to_N_byte_of_N.
  rewrite N.mod_small by lia.
  split; [|lia]. do 3 f_equal. lia.
Qed.

End CodecExtras.

(** * Further properties of the transitions *)

Section TransitionExtras.
Context `{IState}.

Lemma replay_Done_inv (msgs : list (IMsg OtherMsg)) (s s' : State)
    (u : unit) (tr : list Call) :
  replay msgs s = Build_run (Done u) s' tr -> replayed s msgs s'.
Proof.
  revert s s' u tr. induction msgs as [|msg rest IH]; intros s s' u tr.
  - intros E. injection E as _ <- _. constructor.
  - cbn [replay]. unfold bind at 1, call_FollowerExecute.
    destruct (IMsg_FollowerExecute msg s) as [s1 [[]|e|v]] eqn:Hx;
      cbn [outcome final trace]; try discriminate.
    destruct (replay rest s1) as [[u'|v] s2 tr2] eqn:Hr;
      cbn [outcome final trace]; try discriminate.
    intros E. injection E as _ <- _. apply replayed_cons with s1; [assumption|].
    exact (IH s1 s2 u' tr2 Hr).
Qed.

(** The calls of a replay are the follower executions of a prefix of the
    list, of all of it when the replay goes through. *)
Lemma replay_trace_prefix (msgs : list (IMsg OtherMsg)) (s : State) :
  exists k,
    trace (replay msgs s) = map Call_FollowerExecute (firstn k msgs) /\
    (forall u, outcome (replay msgs s) = Done u -> k = List.length msgs).
Proof.
  revert s. induction msgs as [|msg rest IH]; intros s.
  - exists 0. now split.
  - cbn [replay]. unfold bind at 1 2, call_FollowerExecute.
    destruct (IMsg_FollowerExecute msg s) as [s1 [u|e|v]];
      cbn [outcome final trace].
    + destruct (IH s1) as (k & Hk & Hall). exists (S k). cbn. split.
      * now rewrite Hk.
      * intros u' Hu. f_equal. now apply (Hall u').
    + exists 1. cbn. split; [reflexivity | discriminate].
    + exists 1. cbn. split; [reflexivity | discriminate].
Qed.

(** X13. Signing changes neither what is signed nor the hash: the payload and
    the result of [GetHash] are the same before and after [Sign]; a failed
    [Sign] leaves the message as it was, a successful one stores the
    signature [SignSignable] gave. *)
Theorem Sign_keeps_payload_and_hash (m : EOM) (key : State) :
  MarshalForSignature (fst (Sign m key)) = MarshalForSignature m /\
  snd (GetHash (fst (Sign m key))) = snd (GetHash m) /\
  (forall e, snd (Sign m key) = Err e -> fst (Sign m key) = m) /\
  (forall signature,
      SignSignable_EOM m key = Ok signature ->
      snd (Sign m key) = Ok tt /\
      GetSignature (fst (Sign m key)) = Some signature).
Proof.
  unfold Sign. destruct (SignSignable_EOM m key) as [sig|e|v]; cbn [fst snd].
  - split; [|split; [|split]].
    + now apply MarshalForSignature_ext.
    + unfold GetHash. cbn [hash set_Signature].
      rewrite (MarshalForSignature_ext m (set_Signature (Some sig) m))
        by reflexivity.
      destruct (hash m); [reflexivity|].
      destruct (MarshalForSignature m); reflexivity.
    + discriminate.
    + intros signature [= <-]. now split.
  - split; [|split; [|split]]; trivial; discriminate.
  - split; [|split; [|split]]; trivial; discriminate.
Qed.

Lemma FollowerExecute_no_slot_run (m : EOM) (s : State) :
  GetProcessList s = [] ->
  FollowerExecute m s = Build_run (Aborted index_out_of_range) s [].
Proof.
  intros Hpl. unfold FollowerExecute, process_list_slot0.
  unfold bind at 1 2, gets. cbn [outcome final trace]. rewrite Hpl.
  reflexivity.
Qed.

(** X14. When [FollowerExecute] returns.  It returns exactly when slot 0 exists,
    every message of it replays without error and the network profile read
    after the ledger notification is the local one; it then returns a nil
    error, and the node is the one the replay left, notified of the end of
    the minute and, for minute 9, taken through end-of-block processing. *)
Theorem FollowerExecute_returns_iff (D : switch_cases_distinct) (m : EOM)
    (s s' : State) (o : option error) :
  (outcome (FollowerExecute m s) = Done o /\ final (FollowerExecute m s) = s')
  <->
  (o = None /\
   exists slot others s1,
     GetProcessList s = slot :: others /\
     replayed s slot s1 /\
     GetNetworkNumber (EndOfPeriod (int_of_byte (Minute m)) s1)
       = constants_NETWORK_LOCAL /\
     s' = if (Byte.to_N (Minute m) =? 9)%N
          then ProcessEndOfBlock (EndOfPeriod (int_of_byte (Minute m)) s1)
          else EndOfPeriod (int_of_byte (Minute m)) s1).
Proof.
  pose proof (FollowerExecute_run m s) as Hrun. cbv zeta in Hrun.
  split.
  - intros [Ho Hf].
    destruct (GetProcessList s) as [|slot others] eqn:Hpl.
    { rewrite (FollowerExecute_no_slot_run m s Hpl) in Ho. discriminate. }
    rewrite (replay_and_notify_run m s slot others Hpl) in Hrun.
    cbv zeta in Hrun.
    destruct (replay slot s) as [[u|v] s1 tr1] eqn:Hr;
      cbn [outcome final trace] in Hrun.
    + destruct (outcome (network_switch (EndOfPeriod (int_of_byte (Minute m)) s1)))
        as [u'|v] eqn:Hn.
      * rewrite Hrun in Ho, Hf. cbn [outcome final] in Ho, Hf.
        injection Ho as <-. split; [reflexivity|].
        exists slot, others, s1. split; [reflexivity|].
        split; [exact (replay_Done_inv slot s s1 u tr1 Hr)|].
        split; [exact (network_switch_done _ u' Hn)|].
        rewrite last_minute_run in Hf.
        destruct (Byte.to_N (Minute m) =? 9)%N; now cbn in Hf.
      * rewrite Hrun in Ho. discriminate.
    + rewrite Hrun in Ho. discriminate.
  - intros (-> & slot & others & s1 & Hpl & Hok & Hn & ->).
    rewrite (replay_and_notify_run m s slot others Hpl) in Hrun.
    cbv zeta in Hrun. rewrite (replay_done _ _ _ Hok) in Hrun.
    cbn [outcome final trace] in Hrun.
    rewrite (network_switch_local D _ Hn) in Hrun. cbn [outcome] in Hrun.
    rewrite Hrun, last_minute_run.
    destruct (Byte.to_N (Minute m) =? 9)%N; now split.
Qed.

(** X15. The calls of any run of [FollowerExecute], aborted or not: the follower
    executions of a prefix of slot 0 in list order, then nothing, or the
    ledger notification, end-of-block processing and the send on the
    leader-input queue, in this order and each at most once; the ledger is
    notified only after the whole slot.  Nothing is ever sent on the
    outbound or the inbound queue. *)
Theorem FollowerExecute_trace_shape (m : EOM) (s : State)
    (slot : list (IMsg OtherMsg)) (others : list (list (IMsg OtherMsg))) :
  GetProcessList s = slot :: others ->
  exists k tail,
    trace (FollowerExecute m s) =
      map Call_FollowerExecute (firstn k slot) ++ tail /\
    (tail = [] \/
     k = List.length slot /\
     (tail = [Call_EndOfPeriod (int_of_byte (Minute m))] \/
      tail = [Call_EndOfPeriod (int_of_byte (Minute m)); Call_ProcessEndOfBlock] \/
      tail = [Call_EndOfPeriod (int_of_byte (Minute m)); Call_ProcessEndOfBlock;
              Send_LeaderInMsgQueue (IMsg_EOM m)])).
Proof.
  intros Hpl.
  pose proof (FollowerExecute_run m s) as Hrun. cbv zeta in Hrun.
  rewrite (replay_and_notify_run m s slot others Hpl) in Hrun. cbv zeta in Hrun.
  destruct (replay_trace_prefix slot s) as (k & Hk & Hall).
  destruct (replay slot s) as [[u|v] s1 tr1];
    cbn [outcome final trace] in *; subst tr1.
  - rewrite (Hall u eq_refl) in *. exists (List.length slot).
    destruct (outcome (network_switch (EndOfPeriod (int_of_byte (Minute m)) s1))).
    + rewrite last_minute_run in Hrun. rewrite Hrun.
      destruct (Byte.to_N (Minute m) =? 9)%N; cbn [trace].
      * destruct (GetServerState _ =? constants_SERVER_MODE)%Z;
          rewrite <- app_assoc; eexists; (split; [reflexivity|]);
          right; split; auto.
      * rewrite app_nil_r. eexists. split; [reflexivity|].
        right. split; auto.
    + rewrite Hrun. cbn [trace]. eexists. split; [reflexivity|].
      right. split; auto.
  - rewrite Hrun. cbn [trace]. exists k, []. rewrite app_nil_r. auto.
Qed.

(** X16. [LeaderExecute] leaves the node state as it is and does not read the
    minute-close message it is called on.  When it returns, the error is
    nil and it has sent one and the same message, carrying the key of the
    previous directory block, first on the outbound and then on the
    inbound queue; when it panics it has sent nothing, as it does with a
    nil dereference when the node has no previous directory block. *)
Theorem LeaderExecute_frame (m : EOM) (s : State) :
  final (LeaderExecute m s) = s /\
  (forall m', LeaderExecute m' s = LeaderExecute m s) /\
  (forall o, outcome (LeaderExecute m s) = Done o ->
     o = None /\
     exists blk d,
       GetPreviousDirectoryBlock s = Some blk /\
       DirectoryBlockKeyMR d = GetKeyMR blk /\
       trace (LeaderExecute m s) =
         [Send_NetworkOutMsgQueue (IMsg_DBS d); Send_InMsgQueue (IMsg_DBS d)]) /\
  (forall v, outcome (LeaderExecute m s) = Aborted v ->
     trace (LeaderExecute m s) = []) /\
  (GetPreviousDirectoryBlock s = None ->
     LeaderExecute m s = Build_run (Aborted nil_pointer_dereference) s []).
Proof.
  destruct (GetPreviousDirectoryBlock s) as [blk|] eqn:Hprev.
  - rewrite (LeaderExecute_run m s blk Hprev). cbv zeta.
    split; [|split; [|split; [|split]]].
    + destruct (SignSignable_DBS _ s); reflexivity.
    + intros m'. now rewrite (LeaderExecute_run m' s blk Hprev).
    + intros o.
      destruct (SignSignable_DBS _ s) as [sig|e|v]; cbn [outcome trace];
        try discriminate; intros [= <-]; (split; [reflexivity|]);
        exists blk; eexists; (split; [reflexivity|]); (split; [|reflexivity]);
        reflexivity.
    + intros v0.
      destruct (SignSignable_DBS _ s) as [sig|e|v]; cbn [outcome trace];
        try discriminate; reflexivity.
    + discriminate.
  - assert (E : forall m0, LeaderExecute m0 s
                           = Build_run (Aborted nil_pointer_dereference) s []).
    { intros m0. unfold LeaderExecute, bind, gets, panic. cbn.
      now rewrite Hprev. }
    rewrite E. cbn [outcome final trace].
    split; [|split; [|split; [|split]]]; trivial; discriminate.
Qed.

End TransitionExtras.

(** ** The reference node: further runs *)

Section ReferenceExtras.
Import Reference.

Lemma wire_extends_payload_witness :
  exists payload sigb,
    MarshalForSignature eom_signed = Ok payload /\
    MarshalBinary (set_Signature None eom_signed) = Ok payload /\
    wire_signed = payload ++ sigb /\
    match Signature eom_signed with
    | None => sigb = []
    | Some sig => marshal_binary sig = Ok sigb
    end.
Proof.
  exact (wire_extends_payload (H:=primitives) eom_signed wire_signed eq_refl).
Defined.

Lemma payload_layout_witness :
  exists d id h,
    marshal_binary (Timestamp eom_unsigned) = Ok d /\
    IdentityChainID eom_unsigned = Some id /\ marshal_binary id = Ok h /\
    List.length wire_unsigned = (6 + List.length d + List.length h)%nat /\
    nth_error wire_unsigned 0 = Some (byte_of_Z constants_EOM_MSG) /\
    firstn (List.length d) (skipn 1 wire_unsigned) = d /\
    nth_error wire_unsigned (1 + List.length d) = Some (Minute eom_unsigned) /\
    (uint32_range (DirectoryBlockHeight eom_unsigned) ->
     BigEndian_Uint32 (skipn (2 + List.length d) wire_unsigned)
       = Some (DirectoryBlockHeight eom_unsigned)) /\
    skipn (6 + List.length d) wire_unsigned = h.
Proof.
  exact (payload_layout (H:=primitives) eom_unsigned wire_unsigned eq_refl).
Defined.

Lemma encoded_minute_out_of_range_is_rejected_witness :
  MarshalBinary eom_minute10 = Ok (wire_of eom_minute10) /\
  UnmarshalBinaryData new_EOM (wire_of eom_minute10) =
    Returns (Build_frame (set_Minute x0a (set_Timestamp stamp new_EOM)) []
               (Some "Minute number is out of range"%string)).
Proof.
  split; [reflexivity|].
  apply (encoded_minute_out_of_range_is_rejected reference_laws eom_minute10
           new_EOM (wire_of eom_minute10)).
  - vm_compute. discriminate.
  - reflexivity.
Defined.

Lemma decode_unsigned_keeps_signature_witness :
  err (frame_of (UnmarshalBinaryData eom_signed wire_unsigned)) = None /\
  Signature (receiver (frame_of (UnmarshalBinaryData eom_signed wire_unsigned)))
    = Some seal.
Proof.
  apply (decode_unsigned_keeps_signature reference_laws eom_unsigned eom_signed
           wire_unsigned).
  - vm_compute. discriminate.
  - reflexivity.
  - reflexivity.
  - reflexivity.
Defined.

Lemma decode_ignores_trailing_bytes_witness :
  UnmarshalBinaryData new_EOM (wire_signed ++ [x01; x02]) =
    Returns (Build_frame (receiver (frame_of (UnmarshalBinaryData new_EOM wire_signed)))
               (wire_signed ++ [x01; x02]) None).
Proof.
  apply (decode_ignores_trailing_bytes reference_laws eom_signed new_EOM
           wire_signed [x01; x02]).
  - vm_compute. discriminate.
  - reflexivity.
  - discriminate.
  - reflexivity.
Defined.

Lemma GetHash_is_cached_witness :
  GetHash (fst (GetHash eom_unsigned))
    = (fst (GetHash eom_unsigned), Ok (digest wire_unsigned)) /\
  snd (GetHash (set_Minute x03 (fst (GetHash eom_unsigned))))
    = Ok (digest wire_unsigned).
Proof.
  destruct (GetHash_is_cached (H:=primitives) eom_unsigned (digest wire_unsigned)
              eq_refl) as (H1 & _ & H2 & _).
  exact (conj H1 (H2 x03)).
Defined.

(** A minute of 10 is an error with the nil slice; an input too short for
    the timestamp is a recovered panic, and the slice returned is the
    input after its tag byte. *)
Lemma decode_error_slice_witness :
  newData (frame_of (UnmarshalBinaryData new_EOM wire_minute10)) = [] /\
  err (frame_of (UnmarshalBinaryData new_EOM [x00; x01; x02])) =
    Some ("Error unmarshalling: " ++ slice_bounds_out_of_range)%string /\
  newData (frame_of (UnmarshalBinaryData new_EOM [x00; x01; x02])) = [x01; x02].
Proof.
  split; [|split].
  - destruct (decode_error_slice (H:=primitives) new_EOM wire_minute10
                (frame_of (UnmarshalBinaryData new_EOM wire_minute10))
                "Minute number is out of range"%string eq_refl eq_refl)
      as [[_ Hnil] | (fb & p & Hb & _)].
    + exact Hnil.
    + discriminate Hb.
  - reflexivity.
  - destruct (decode_error_slice (H:=primitives) new_EOM [x00; x01; x02]
                (frame_of (UnmarshalBinaryData new_EOM [x00; x01; x02]))
                ("Error unmarshalling: " ++ slice_bounds_out_of_range)%string
                eq_refl eq_refl)
      as [[Hb _] | (fb & p & Hb & _ & _ & Hslice)].
    + discriminate Hb.
    + rewrite Hslice. injection Hb as <- _. reflexivity.
Defined.

Lemma String_of_decoded_witness :
  String_ (receiver (frame_of (UnmarshalBinaryData new_EOM wire_unsigned)))
    = "EOM(10), DirectoryBlockHeight(70000)"%string.
Proof.
  rewrite (proj1 (String_of_decoded (H:=primitives) new_EOM wire_unsigned
                    (frame_of (UnmarshalBinaryData new_EOM wire_unsigned))
                    eq_refl eq_refl)).
  reflexivity.
Defined.

Lemma FollowerExecute_returns_iff_witness :
  outcome (FollowerExecute eom_unsigned quiet_node) = Done None /\
  final (FollowerExecute eom_unsigned quiet_node) =
    node_end_of_block (node_end_of_period 9 quiet_node).
Proof.
  apply (proj2 (FollowerExecute_returns_iff reference_switch_cases eom_unsigned
                  quiet_node _ None)).
  split; [reflexivity|].
  exists [IMsg_other true; IMsg_other true], [], quiet_node.
  split; [reflexivity|]. split; [|split; reflexivity].
  eapply (@replayed_cons primitives state); [reflexivity|].
  eapply (@replayed_cons primitives state); [reflexivity|].
  apply (@replayed_nil primitives state).
Defined.

Lemma FollowerExecute_trace_shape_witness :
  exists k tail,
    trace (FollowerExecute eom_unsigned (with_network 0 local_node)) =
      map Call_FollowerExecute
        (firstn k [IMsg_other true; IMsg_EOM eom_minute3]) ++ tail /\
    (tail = [] \/
     k = 2 /\
     (tail = [Call_EndOfPeriod 9] \/
      tail = [Call_EndOfPeriod 9; Call_ProcessEndOfBlock] \/
      tail = [Call_EndOfPeriod 9; Call_ProcessEndOfBlock;
              Send_LeaderInMsgQueue (IMsg_EOM eom_unsigned)])).
Proof.
  exact (FollowerExecute_trace_shape (H0:=state) eom_unsigned
           (with_network 0 local_node)
           [IMsg_other true; IMsg_EOM eom_minute3] [] eq_refl).
Defined.

End ReferenceExtras.
